(** Verification of the NiceGUI web interface of TwitchDropsMiner
    (package [webui/]): inventory filtering and redraw, campaign status
    and progress derivation, console log, websocket status table and the
    close race of [coro_unless_closed]. *)

From Stdlib Require Import String Ascii ZArith QArith Qminmax List Lia.
From stdpp Require Import base gmap strings pretty.
Import ListNotations.
Open Scope string_scope.

(* ------------------------------------------------------------------ *)
(** * Python string helpers *)

(** [str.lower] on the ASCII range. *)
Definition ascii_lower (c : ascii) : ascii :=
  let n := nat_of_ascii c in
  if andb (Nat.leb 65 n) (Nat.leb n 90) then ascii_of_nat (n + 32) else c.

Fixpoint str_lower (s : string) : string :=
  match s with
  | EmptyString => EmptyString
  | String c s' => String (ascii_lower c) (str_lower s')
  end.

(** The characters below 256 that Python's [str.isspace] accepts (and
    [str.strip] removes): \t \n \x0b \x0c \r, \x1c-\x1f, space, \x85
    and \xa0; a character of the model is a code point below 256. *)
Definition is_space (c : ascii) : bool :=
  let n := nat_of_ascii c in
  Nat.eqb n 32 || (Nat.leb 9 n && Nat.leb n 13) || (Nat.leb 28 n && Nat.leb n 31)
  || Nat.eqb n 133 || Nat.eqb n 160.

(** [bool(line.strip())]: the line has a non-whitespace character. *)
Fixpoint strip_nonempty (s : string) : bool :=
  match s with
  | EmptyString => false
  | String c s' => if is_space c then strip_nonempty s' else true
  end.

Definition newline : ascii := ascii_of_nat 10.

(** [sep in s] for a one-character separator. *)
Fixpoint str_contains (sep : ascii) (s : string) : bool :=
  match s with
  | EmptyString => false
  | String c s' => if Ascii.eqb c sep then true else str_contains sep s'
  end.

(** [s.split(sep)] for a one-character separator. *)
Fixpoint str_split (sep : ascii) (s : string) : list string :=
  match s with
  | EmptyString => [EmptyString]
  | String c s' =>
      let parts := str_split sep s' in
      if Ascii.eqb c sep then EmptyString :: parts
      else match parts with
           | p :: ps => String c p :: ps
           | [] => [String c EmptyString]
           end
  end.

(* ------------------------------------------------------------------ *)
(** * Campaign objects handed over by the Twitch client

    Attributes tested with [hasattr] / read with [getattr] are [option]s:
    [None] is an absent attribute. *)

Record Drop := mkDrop {
  current_minutes : option Z;
  required_minutes : option Z
}.

Record Game := mkGame { game_name : option string }.

Record Campaign := mkCampaign {
  c_id : string;
  c_name : string;
  c_game : option Game;
  c_active : option bool;
  c_upcoming : option bool;
  c_expired : option bool;
  c_eligible : option bool;
  c_drops : option (list Drop)
}.

(** The [campaign_data] dict stored in [manager._campaigns]; keys that
    [dict.get] may miss are [option]s. *)
Record CampaignData := mkCampaignData {
  cd_name : option string;
  cd_game : option string;
  cd_status : option string;
  cd_progress : Q;
  cd_time_remaining : string;
  campaign_obj : option Campaign
}.

(** [manager._inventory_filters]: always holds the six keys. *)
Record FilterSet := mkFilterSet {
  not_linked : bool;
  upcoming : bool;
  active : bool;
  expired : bool;
  excluded : bool;
  finished : bool
}.

(* ------------------------------------------------------------------ *)
(** * webui/utils.py *)

(** [get_campaign_status] *)
Definition get_campaign_status (c : Campaign) : string :=
  if default false (c_active c) then "Active"
  else if default false (c_upcoming c) then "Upcoming"
  else if default false (c_expired c) then "Expired"
  else "Unknown".

(** [get_campaign_progress]: Python's float division is taken exactly in
    [Q]; the ratios used below are exact in binary floating point too. *)
Fixpoint drops_progress (ds : list Drop) : Q :=
  match ds with
  | [] => 0
  | d :: ds' =>
      match current_minutes d, required_minutes d with
      | Some cur, Some req =>
          if Z.ltb 0 req then (inject_Z cur / inject_Z req) * 100
          else drops_progress ds'
      | _, _ => drops_progress ds'
      end
  end.

Definition get_campaign_progress (c : Campaign) : Q :=
  match c_drops c with
  | Some ds => drops_progress ds
  | None => 0
  end.

(** [should_show_campaign_with_filters] *)
Definition should_show_campaign_with_filters
    (campaign_data : CampaignData) (filters : FilterSet) : bool :=
  let show_not_linked := not_linked filters in
  let show_upcoming := upcoming filters in
  let show_active := active filters in
  let show_expired := expired filters in
  let show_excluded := excluded filters in
  let show_finished := finished filters in
  let status := str_lower (default "" (cd_status campaign_data)) in
  match campaign_obj campaign_data with
  | None =>
      let any_filter_enabled :=
        show_not_linked || show_upcoming || show_active || show_expired
        || show_excluded || show_finished in
      if negb any_filter_enabled then false
      else if String.eqb status "upcoming" then show_upcoming
      else if String.eqb status "active" then show_active
      else if String.eqb status "expired" then show_expired
      else if String.eqb status "finished" then show_finished
      else false
  | Some campaign =>
      let eligible := default true (c_eligible campaign) in
      if show_not_linked && negb eligible then false
      else if String.eqb status "upcoming" then show_upcoming
      else if String.eqb status "active" then show_active
      else if String.eqb status "expired" then show_expired
      else if String.eqb status "finished" then show_finished
      else true
  end.

(* ------------------------------------------------------------------ *)
(** * webui/mock_classes.py: [MockInventory._get_campaign_status] *)

Module MockInventory.

Definition get_campaign_status (c : Campaign) : string :=
  if default false (c_active c) then "Active"
  else if default false (c_upcoming c) then "Upcoming"
  else if default false (c_expired c) then "Expired"
  else "Unknown".

End MockInventory.

(* ------------------------------------------------------------------ *)
(** * webui.py: [WebUIManager._should_show_campaign]

    The module [webui.py] sits next to the package [webui/], which wins
    the import of [webui]; this older copy of the filter is embedded for
    comparison. [settings_exclude] is [getattr(self._twitch.settings,
    'exclude', set())], [None] when the client has no [settings]. *)

Module LegacyWebUI.

Definition should_show_campaign (settings_exclude : option (list string))
    (inventory_filters : FilterSet) (campaign_data : CampaignData) : bool :=
  let show_not_linked := not_linked inventory_filters in
  let show_upcoming := upcoming inventory_filters in
  let show_active := active inventory_filters in
  let show_expired := expired inventory_filters in
  let show_excluded := excluded inventory_filters in
  let show_finished := finished inventory_filters in
  let status := str_lower (default "" (cd_status campaign_data)) in
  match campaign_obj campaign_data with
  | None =>
      let any_filter_enabled :=
        show_not_linked || show_upcoming || show_active || show_expired
        || show_excluded || show_finished in
      if negb any_filter_enabled then false
      else if String.eqb status "upcoming" then show_upcoming
      else if String.eqb status "active" then show_active
      else if String.eqb status "expired" then show_expired
      else if String.eqb status "finished" then show_finished
      else false
  | Some campaign =>
      let eligible := default true (c_eligible campaign) in
      if show_not_linked && negb eligible then false
      else if String.eqb status "upcoming" then show_upcoming
      else if String.eqb status "active" then show_active
      else if String.eqb status "expired" then show_expired
      else if String.eqb status "finished" then show_finished
      else
        match c_game campaign, settings_exclude with
        | Some g, Some exclude =>
            let is_excluded :=
              existsb (String.eqb (default "" (game_name g))) exclude in
            if is_excluded && negb show_excluded then false else true
        | _, _ => true
        end
  end.

End LegacyWebUI.

(* ------------------------------------------------------------------ *)
(** * webui/components/inventory_panel.py *)

(** The [campaign_data] dict built by [refresh_inventory] for a campaign
    of the client's inventory; [time_remaining] is
    [format_time_remaining(campaign)], which reads the clock. *)
Definition ingest_campaign (campaign : Campaign) (time_remaining : string)
    : CampaignData :=
  {| cd_name := Some (c_name campaign);
     cd_game := Some (match c_game campaign with
                      | Some g => default "Unknown Game" (game_name g)
                      | None => "Unknown Game"
                      end);
     cd_status := Some (get_campaign_status campaign);
     cd_progress := get_campaign_progress campaign;
     cd_time_remaining := time_remaining;
     campaign_obj := Some campaign |}.

(** Rows of [manager._inventory_container]. *)
Inductive Row :=
  | LoadPlaceholder       (* "No campaigns loaded. Click Refresh ..." *)
  | DebugLabel            (* "DEBUG: This label should always be visible" *)
  | EmptyStorePlaceholder (* "No campaigns available. ..." *)
  | NoMatchesPlaceholder  (* "No campaigns match the current filters. ..." *)
  | CampaignCard (name game status status_class : string)
                 (progress : option (Q * string)).

(** The colour class of the status label of [add_campaign_to_display]. *)
Definition status_class (status : string) : string :=
  let s := str_lower status in
  if String.eqb s "active" then "text-sm font-medium text-green-600"
  else if String.eqb s "upcoming" then "text-sm font-medium text-blue-600"
  else if String.eqb s "expired" then "text-sm font-medium text-red-600"
  else if String.eqb s "finished" then "text-sm font-medium text-purple-600"
  else "text-sm font-medium text-gray-600".

(** [add_campaign_to_display]: the card appended to the container. *)
Definition add_campaign_to_display (view : list Row) (campaign_data : CampaignData)
    : list Row :=
  let campaign_name := default "Unknown Campaign" (cd_name campaign_data) in
  let status := default "Unknown" (cd_status campaign_data) in
  let game := default "Unknown Game" (cd_game campaign_data) in
  let progress := cd_progress campaign_data in
  let time_remaining := cd_time_remaining campaign_data in
  app view [CampaignCard campaign_name game status (status_class status)
            (if Qlt_le_dec 0 progress then Some (progress, time_remaining)
             else None)].

(** The loop over [manager._campaigns.items()]: (view, shown_count). *)
Fixpoint display_campaigns (filters : FilterSet)
    (campaigns : list (string * CampaignData)) (view : list Row) (shown_count : nat)
    : list Row * nat :=
  match campaigns with
  | [] => (view, shown_count)
  | (_, campaign_data) :: rest =>
      if should_show_campaign_with_filters campaign_data filters
      then display_campaigns filters rest
             (add_campaign_to_display view campaign_data) (S shown_count)
      else display_campaigns filters rest view shown_count
  end.

(** [refresh_inventory_display]: [inventory_container] is [None] before
    the inventory tab is built; the console lines it prints are left out. *)
Definition refresh_inventory_display (campaigns : list (string * CampaignData))
    (inventory_filters : FilterSet) (inventory_container : option (list Row))
    : option (list Row) :=
  match inventory_container with
  | None => None
  | Some _ =>
      let view := @nil Row in
      match campaigns with
      | [] => Some (app view [EmptyStorePlaceholder])
      | _ :: _ =>
          let '(view, shown_count) :=
            display_campaigns inventory_filters campaigns view 0 in
          if Nat.eqb shown_count 0 then Some (app view [NoMatchesPlaceholder])
          else Some view
      end
  end.

Definition is_campaign_row (r : Row) : bool :=
  match r with CampaignCard _ _ _ _ _ => true | _ => false end.

Definition campaign_rows (v : list Row) : nat :=
  length (List.filter is_campaign_row v).

(* ------------------------------------------------------------------ *)
(** * webui/manager.py: [WebUIManager.print]

    [console_log] is [self._console_log]; [console] is the log widget
    [self._console] with the lines pushed to it ([None] before the page is
    built); [stdout] collects the fallback [print] calls. [timestamp] is
    [datetime.now().strftime("%X")]. *)

Record Manager := mkManager {
  console_log : list string;
  console : option (list string);
  stdout : list string
}.

Definition print (timestamp message : string) (m : Manager) : Manager :=
  let formatted_message := timestamp ++ ": " ++ message in
  let console_log' := app (console_log m) [formatted_message] in
  match console m with
  | Some pushed =>
      let pushed' :=
        if str_contains newline message
        then app pushed
               (map (fun line => timestamp ++ ": " ++ line)
                    (List.filter strip_nonempty (str_split newline message)))
        else app pushed [formatted_message] in
      mkManager console_log' (Some pushed') (stdout m)
  | None => mkManager console_log' None (app (stdout m) [formatted_message])
  end.

(** [MockOutput.print] forwards to the manager. *)
Definition output_print (timestamp message : string) (m : Manager) : Manager :=
  print timestamp message m.

(** A sequence of [print] calls, each with its timestamp. *)
Fixpoint print_all (calls : list (string * string)) (m : Manager) : Manager :=
  match calls with
  | [] => m
  | (ts, msg) :: rest => print_all rest (print ts msg m)
  end.

(* ------------------------------------------------------------------ *)
(** * webui/mock_classes.py: [MockWebsocketStatus]

    [self._items] maps a connection index to the dict
    [{"status": ..., "topics": ...}], which always holds both keys. *)

Record WsItem := mkWsItem { ws_status : string; ws_topics : Z }.

Inductive PyException :=
  | TypeError (msg : string).

Module MockWebsocketStatus.

Definition update (items : gmap Z WsItem) (idx : Z)
    (status : option string) (topics : option Z)
    : PyException + gmap Z WsItem :=
  match status, topics with
  | None, None =>
      inl (TypeError "You need to provide at least one of: status, topics")
  | _, _ =>
      let items :=
        match items !! idx with
        | Some _ => items
        | None => <[idx := mkWsItem "disconnected" 0]> items
        end in
      let items :=
        match status with
        | Some s => alter (fun it => mkWsItem s (ws_topics it)) idx items
        | None => items
        end in
      let items :=
        match topics with
        | Some t => alter (fun it => mkWsItem (ws_status it) t) idx items
        | None => items
        end in
      inr items
  end.

End MockWebsocketStatus.

(* ------------------------------------------------------------------ *)
(** * webui/manager.py: [WebUIManager.coro_unless_closed]

    The call on the asyncio loop, as a trace of loop events:
    - [OpFinish a]: the task of [coro] finishes with [a]; as the first
      finished task it fires the completion callback of [asyncio.wait],
      which schedules the caller;
    - [Close]: [close()] sets [self._close_requested];
    - [WaitWake]: the task of [self._close_requested.wait()] runs after the
      event is set and finishes with [True], scheduling the caller likewise;
    - [Resume w]: the caller runs again: [asyncio.wait] splits the tasks
      into [done] and [pending], [task.cancel()] is called on the pending
      ones, then [is_set()] is tested; [w] is the task that
      [next(iter(done))] yields (a Python set has no fixed order);
    - [DeliverCancel w]: the loop runs a task whose cancellation was
      requested; [CancelledError] ends it;
    - [OpSuppressCancel]: the loop runs the task of [coro] whose
      cancellation was requested, and the coroutine catches
      [CancelledError] and goes on running;
    - [CancelCaller]: the task awaiting [coro_unless_closed] is cancelled
      while it is suspended in [asyncio.wait] (before it resumes):
      [CancelledError] propagates out of the call, and [asyncio.wait] does
      not cancel the two tasks it was waiting on.
    [task.cancel()] only requests the cancellation, as in asyncio; the
    coroutine is not awaited afterwards. [prevent_close] is not part of
    this model. *)

Inductive TaskState (R : Type) :=
  | TRunning
  | TDone (r : R)
  | TCancelRequested
  | TCancelled.
Arguments TRunning {R}.
Arguments TDone {R} r.
Arguments TCancelRequested {R}.
Arguments TCancelled {R}.

Inductive Which := OpTask | WaitTask.

Section Race.

Variable A : Type.

Inductive Phase :=
  | Waiting
  | Woken
  | Returned (r : A + bool)
  | Raised (* ExitRequest *)
  | CallerCancelled (* CancelledError *).

Record Race := mkRace {
  op_task : TaskState A;
  wait_task : TaskState bool;
  close_flag : bool;
  caller : Phase
}.

Inductive Event :=
  | OpFinish (a : A)
  | Close
  | WaitWake
  | Resume (w : Which)
  | DeliverCancel (w : Which)
  | OpSuppressCancel
  | CancelCaller.

Definition wake (p : Phase) : Phase :=
  match p with Waiting => Woken | _ => p end.

Definition cancel {R} (t : TaskState R) : TaskState R :=
  match t with TRunning => TCancelRequested | _ => t end.

Definition step (s : Race) (e : Event) : option Race :=
  match e with
  | OpFinish a =>
      match op_task s with
      | TRunning =>
          Some (mkRace (TDone a) (wait_task s) (close_flag s) (wake (caller s)))
      | _ => None
      end
  | Close => Some (mkRace (op_task s) (wait_task s) true (caller s))
  | WaitWake =>
      match wait_task s, close_flag s with
      | TRunning, true =>
          Some (mkRace (op_task s) (TDone true) (close_flag s) (wake (caller s)))
      | _, _ => None
      end
  | Resume w =>
      match caller s with
      | Woken =>
          let op' := cancel (op_task s) in
          let wait' := cancel (wait_task s) in
          if close_flag s then Some (mkRace op' wait' (close_flag s) Raised)
          else
            match w, op_task s, wait_task s with
            | OpTask, TDone a, _ =>
                Some (mkRace op' wait' (close_flag s) (Returned (inl a)))
            | WaitTask, _, TDone b =>
                Some (mkRace op' wait' (close_flag s) (Returned (inr b)))
            | _, _, _ => None
            end
      | _ => None
      end
  | DeliverCancel OpTask =>
      match op_task s with
      | TCancelRequested =>
          Some (mkRace TCancelled (wait_task s) (close_flag s) (caller s))
      | _ => None
      end
  | DeliverCancel WaitTask =>
      match wait_task s with
      | TCancelRequested =>
          Some (mkRace (op_task s) TCancelled (close_flag s) (caller s))
      | _ => None
      end
  | OpSuppressCancel =>
      match op_task s with
      | TCancelRequested =>
          Some (mkRace TRunning (wait_task s) (close_flag s) (caller s))
      | _ => None
      end
  | CancelCaller =>
      match caller s with
      | Waiting | Woken =>
          Some (mkRace (op_task s) (wait_task s) (close_flag s) CallerCancelled)
      | _ => None
      end
  end.

Fixpoint run (s : Race) (es : list Event) : option Race :=
  match es with
  | [] => Some s
  | e :: es' =>
      match step s e with
      | Some s' => run s' es'
      | None => None
      end
  end.

(** The state right after [asyncio.wait] suspends the caller; [flag0] is
    whether a close was requested before the call. *)
Definition race_init (flag0 : bool) : Race :=
  mkRace TRunning TRunning flag0 Waiting.

Definition terminal (p : Phase) : bool :=
  match p with Returned _ | Raised | CallerCancelled => true | _ => false end.

End Race.

Arguments Waiting {A}.
Arguments Woken {A}.
Arguments Returned {A} r.
Arguments Raised {A}.
Arguments CallerCancelled {A}.
Arguments OpFinish {A} a.
Arguments Close {A}.
Arguments WaitWake {A}.
Arguments Resume {A} w.
Arguments DeliverCancel {A} w.
Arguments OpSuppressCancel {A}.
Arguments CancelCaller {A}.
Arguments step {A} s e.
Arguments run {A} s es.
Arguments race_init {A} flag0.
Arguments terminal {A} p.
Arguments mkRace {A} op_task wait_task close_flag caller.
Arguments op_task {A} r.
Arguments wait_task {A} r.
Arguments close_flag {A} r.
Arguments caller {A} r.

(* ------------------------------------------------------------------ *)
(** * Statement helpers *)

(** The lower-cased status the filter compares. *)
Definition status_of (cd : CampaignData) : string :=
  str_lower (default "" (cd_status cd)).

Definition is_bucket (s : string) : bool :=
  String.eqb s "upcoming" || String.eqb s "active" || String.eqb s "expired"
  || String.eqb s "finished".

(** The flag of the lifecycle bucket a lower-cased status names. *)
Definition bucket_flag (f : FilterSet) (s : string) : option bool :=
  if String.eqb s "upcoming" then Some (upcoming f)
  else if String.eqb s "active" then Some (active f)
  else if String.eqb s "expired" then Some (expired f)
  else if String.eqb s "finished" then Some (finished f)
  else None.

Definition all_off : FilterSet := mkFilterSet false false false false false false.

Definition with_excluded (f : FilterSet) (b : bool) : FilterSet :=
  mkFilterSet (not_linked f) (upcoming f) (active f) (expired f) b (finished f).

Definition with_finished (f : FilterSet) (b : bool) : FilterSet :=
  mkFilterSet (not_linked f) (upcoming f) (active f) (expired f) (excluded f) b.

(** Sample inputs. *)
Definition sample_campaign (eligible : option bool) (active_ upcoming_ expired_ : option bool)
    (drops : option (list Drop)) : Campaign :=
  mkCampaign "c1" "Sample Campaign" (Some (mkGame (Some "Some Game")))
    active_ upcoming_ expired_ eligible drops.

Definition live_data (status : string) (c : Campaign) : CampaignData :=
  mkCampaignData (Some (c_name c)) (Some "Some Game") (Some status) 0 "" (Some c).

Definition synthetic_data (status : string) : CampaignData :=
  mkCampaignData (Some "Test Campaign") (Some "Test Game") (Some status) 0 "" None.

Ltac split_eqb :=
  repeat match goal with
         | |- context [String.eqb ?a ?b] => destruct (String.eqb a b)
         end.

(* ------------------------------------------------------------------ *)
(** * Filter claims *)

Example filter_synthetic_active :
  should_show_campaign_with_filters (synthetic_data "Active")
    (mkFilterSet false false true false false false) = true.
Proof. reflexivity. Qed.

Example filter_live_unknown_all_off :
  should_show_campaign_with_filters
    (live_data "Unknown" (sample_campaign None None None None None)) all_off = true.
Proof. reflexivity. Qed.

(** C2 (as stated, refuted): with all six flags off, a live campaign whose
    status is in no lifecycle bucket ("Unknown") is shown. *)
Lemma C2_counterexample :
  ~ (forall cd : CampaignData, should_show_campaign_with_filters cd all_off = false).
Proof.
  intros H.
  specialize (H (live_data "Unknown" (sample_campaign None None None None None))).
  discriminate H.
Qed.

(** C2 (amended): with all six flags off, every synthetic campaign (no
    backing object) is hidden, and a live campaign is hidden exactly when
    its lower-cased status is one of upcoming/active/expired/finished;
    a live campaign in no bucket is shown. *)
Theorem C2_all_off_visibility (cd : CampaignData) :
  should_show_campaign_with_filters cd all_off =
  match campaign_obj cd with
  | None => false
  | Some _ => negb (is_bucket (status_of cd))
  end.
Proof.
  unfold should_show_campaign_with_filters, is_bucket, status_of.
  cbv zeta.
  set (s := str_lower (default "" (cd_status cd))).
  destruct (campaign_obj cd); [|reflexivity].
  split_eqb; reflexivity.
Qed.

(** C3 (as stated, refuted): an ineligible live campaign with status
    "Active" is hidden under notLinked=true even though active=true. *)
Lemma C3_counterexample :
  ~ (forall (cd : CampaignData) (f : FilterSet) (c : Campaign) (b : bool),
       campaign_obj cd = Some c ->
       bucket_flag f (status_of cd) = Some b ->
       should_show_campaign_with_filters cd f = b).
Proof.
  intros H.
  specialize (H (live_data "Active" (sample_campaign (Some false) (Some true) None None None))
                (mkFilterSet true false true false false false)
                (sample_campaign (Some false) (Some true) None None None) true
                eq_refl eq_refl).
  discriminate H.
Qed.

(** C3 (amended): for a live campaign whose status matches one of the four
    lifecycle buckets, the filter returns that bucket's flag, except that
    notLinked=true hides an ineligible campaign first; the excluded flag is
    not consulted. *)
Theorem C3_bucket_precedence (cd : CampaignData) (f : FilterSet) (c : Campaign) (b : bool)
    (Hobj : campaign_obj cd = Some c)
    (Hbucket : bucket_flag f (status_of cd) = Some b) :
  should_show_campaign_with_filters cd f =
    negb (not_linked f && negb (default true (c_eligible c))) && b
  /\ (forall x : bool,
        should_show_campaign_with_filters cd (with_excluded f x) =
        should_show_campaign_with_filters cd f).
Proof.
  unfold should_show_campaign_with_filters, bucket_flag, status_of, with_excluded in *.
  rewrite Hobj; cbv zeta.
  set (s := str_lower (default "" (cd_status cd))) in *.
  revert Hbucket.
  split_eqb; intros Hbucket; try discriminate Hbucket; injection Hbucket as <-;
    (split; [|reflexivity]);
    destruct (not_linked f), (default true (c_eligible c)); reflexivity.
Qed.

Lemma C3_bucket_precedence_witness :
  campaign_obj (live_data "Active" (sample_campaign None (Some true) None None None)) =
    Some (sample_campaign None (Some true) None None None)
  /\ bucket_flag (mkFilterSet false false true false false false)
       (status_of (live_data "Active" (sample_campaign None (Some true) None None None)))
     = Some true
  /\ should_show_campaign_with_filters
       (live_data "Active" (sample_campaign None (Some true) None None None))
       (mkFilterSet false false true false false false) = true.
Proof.
  split; [reflexivity|]. split; [reflexivity|].
  destruct (C3_bucket_precedence
              (live_data "Active" (sample_campaign None (Some true) None None None))
              (mkFilterSet false false true false false false)
              (sample_campaign None (Some true) None None None) true
              eq_refl eq_refl) as [H _].
  rewrite H. reflexivity.
Defined.

(** C8: a live campaign with [eligible=False] is hidden whenever the
    notLinked flag is on, whatever its status and the other five flags
    (in the filter of [webui/utils.py] and in the older copy of [webui.py]). *)
Theorem C8_not_linked_hides_ineligible (cd : CampaignData) (c : Campaign)
    (f : FilterSet) (exclude : option (list string))
    (Hobj : campaign_obj cd = Some c)
    (Hel : c_eligible c = Some false)
    (Hnl : not_linked f = true) :
  should_show_campaign_with_filters cd f = false
  /\ LegacyWebUI.should_show_campaign exclude f cd = false.
Proof.
  unfold should_show_campaign_with_filters, LegacyWebUI.should_show_campaign.
  rewrite Hobj, Hel, Hnl. split; reflexivity.
Qed.

Lemma C8_not_linked_hides_ineligible_witness :
  should_show_campaign_with_filters
    (live_data "Unknown" (sample_campaign (Some false) None None None None))
    (mkFilterSet true true true true true true) = false.
Proof.
  apply (C8_not_linked_hides_ineligible
           (live_data "Unknown" (sample_campaign (Some false) None None None None))
           (sample_campaign (Some false) None None None None)
           (mkFilterSet true true true true true true) None eq_refl eq_refl eq_refl).
Defined.

(** C10: the derived status follows the precedence Active, Upcoming,
    Expired, Unknown (in [webui/utils.py] and in [MockInventory]); it is
    never "Finished", so the finished flag never decides the visibility of
    a campaign ingested by [refresh_inventory]. *)
Theorem C10_status_precedence (c : Campaign) (time_remaining : string) (f : FilterSet)
    (x : bool) :
  MockInventory.get_campaign_status c = get_campaign_status c
  /\ (get_campaign_status c = "Active" <-> c_active c = Some true)
  /\ (get_campaign_status c = "Upcoming" <->
        c_active c <> Some true /\ c_upcoming c = Some true)
  /\ (get_campaign_status c = "Expired" <->
        c_active c <> Some true /\ c_upcoming c <> Some true /\ c_expired c = Some true)
  /\ (get_campaign_status c = "Unknown" <->
        c_active c <> Some true /\ c_upcoming c <> Some true /\ c_expired c <> Some true)
  /\ str_lower (get_campaign_status c) <> "finished"
  /\ should_show_campaign_with_filters (ingest_campaign c time_remaining) (with_finished f x)
     = should_show_campaign_with_filters (ingest_campaign c time_remaining) f.
Proof.
  destruct c as [id nm g act up ex el ds].
  unfold MockInventory.get_campaign_status, get_campaign_status,
    should_show_campaign_with_filters, ingest_campaign, with_finished; cbn [c_active c_upcoming c_expired c_eligible campaign_obj cd_status].
  destruct act as [[]|], up as [[]|], ex as [[]|];
    cbv beta iota delta [default from_option Datatypes.id];
    (split; [reflexivity|]);
    repeat split; intros; repeat match goal with H : _ /\ _ |- _ => destruct H end;
    try congruence; try reflexivity;
    try (intros Hf; vm_compute in Hf; discriminate Hf).
Qed.

Lemma C10_status_precedence_witness :
  get_campaign_status (sample_campaign None (Some false) (Some true) (Some true) None)
  = "Upcoming".
Proof.
  destruct (C10_status_precedence
              (sample_campaign None (Some false) (Some true) (Some true) None) ""
              all_off false) as [_ [_ [[_ H] _]]].
  apply H. split; [discriminate | reflexivity].
Defined.

(** The claim's reading of [progressPercent]: the maximum of the ratios of
    the drops that report minutes, 0 without any, clamped into [0, 100]. *)
Definition drop_ratio (d : Drop) : option Q :=
  match current_minutes d, required_minutes d with
  | Some cur, Some req =>
      if Z.ltb 0 req then Some ((inject_Z cur / inject_Z req) * 100)%Q else None
  | _, _ => None
  end.

Definition spec_progress_percent (c : Campaign) : Q :=
  let ratios := flat_map (fun d => match drop_ratio d with
                                   | Some r => [r] | None => [] end)
                         (default [] (c_drops c)) in
  match ratios with
  | [] => 0
  | r :: rs => Qmax 0 (Qmin 100 (fold_left Qmax rs r))
  end.

(** Whether [get_campaign_progress] takes its value from a drop. *)
Definition reports_minutes (d : Drop) : bool :=
  match current_minutes d, required_minutes d with
  | Some _, Some req => Z.ltb 0 req
  | _, _ => false
  end.

Definition two_drops : Campaign :=
  sample_campaign None (Some true) None None
    (Some [mkDrop (Some 0%Z) (Some 1%Z); mkDrop (Some 1%Z) (Some 1%Z)]).

Example progress_two_drops : get_campaign_progress two_drops == 0.
Proof. reflexivity. Qed.

Example progress_over_full :
  get_campaign_progress
    (sample_campaign None (Some true) None None (Some [mkDrop (Some 2%Z) (Some 1%Z)])) == 200.
Proof. reflexivity. Qed.

(** C4 (as stated, refuted): with drops at 0/1 and 1/1 minutes the
    progress is 0, not the maximum 100. *)
Lemma C4_counterexample :
  ~ (forall c : Campaign, get_campaign_progress c == spec_progress_percent c).
Proof.
  intros H. specialize (H two_drops).
  vm_compute in H. discriminate H.
Qed.

Lemma drops_progress_skip (pre rest : list Drop) :
  Forall (fun d => reports_minutes d = false) pre ->
  drops_progress (pre ++ rest) = drops_progress rest.
Proof.
  induction 1 as [|d pre Hd _ IH]; [reflexivity|].
  cbn [app drops_progress]. rewrite <- IH.
  unfold reports_minutes in Hd.
  destruct (current_minutes d), (required_minutes d); try reflexivity.
  rewrite Hd. reflexivity.
Qed.

(** C4 (amended): the progress is currentMinutes/requiredMinutes x 100 of
    the first drop, in list order, that has both attributes and
    requiredMinutes > 0, without clamping; it is 0 when no drop qualifies
    or the campaign has no drops. *)
Theorem C4_first_reporting_drop (c : Campaign) :
  (c_drops c = None -> get_campaign_progress c = 0%Q)
  /\ (forall ds : list Drop, c_drops c = Some ds ->
        Forall (fun d => reports_minutes d = false) ds ->
        get_campaign_progress c = 0%Q)
  /\ (forall (pre post : list Drop) (d : Drop) (cur req : Z),
        c_drops c = Some (pre ++ d :: post)%list ->
        Forall (fun d => reports_minutes d = false) pre ->
        current_minutes d = Some cur -> required_minutes d = Some req -> (0 < req)%Z ->
        get_campaign_progress c = ((inject_Z cur / inject_Z req) * 100)%Q).
Proof.
  unfold get_campaign_progress. split; [|split].
  - intros ->. reflexivity.
  - intros ds -> Hds. rewrite <- (app_nil_r ds), drops_progress_skip by exact Hds.
    reflexivity.
  - intros pre post d cur req -> Hpre Hcur Hreq Hpos.
    rewrite drops_progress_skip by exact Hpre. cbn [drops_progress].
    rewrite Hcur, Hreq. apply Z.ltb_lt in Hpos. rewrite Hpos. reflexivity.
Qed.

Lemma C4_first_reporting_drop_witness :
  get_campaign_progress
    (sample_campaign None (Some true) None None
       (Some [mkDrop None (Some 5%Z); mkDrop (Some 3%Z) (Some 4%Z); mkDrop (Some 4%Z) (Some 4%Z)]))
  = ((inject_Z 3 / inject_Z 4) * 100)%Q.
Proof.
  destruct (C4_first_reporting_drop
              (sample_campaign None (Some true) None None
                 (Some [mkDrop None (Some 5%Z); mkDrop (Some 3%Z) (Some 4%Z);
                        mkDrop (Some 4%Z) (Some 4%Z)]))) as [_ [_ H]].
  apply (H [mkDrop None (Some 5%Z)] [mkDrop (Some 4%Z) (Some 4%Z)] (mkDrop (Some 3%Z) (Some 4%Z)) 3%Z 4%Z);
    [reflexivity | repeat constructor | reflexivity | reflexivity | lia].
Defined.

(* ------------------------------------------------------------------ *)
(** * Console log *)

Definition format_line (call : string * string) : string :=
  fst call ++ ": " ++ snd call.

Lemma print_log (ts msg : string) (m : Manager) :
  console_log (print ts msg m) = app (console_log m) [ts ++ ": " ++ msg].
Proof. unfold print. destruct (console m); reflexivity. Qed.

Lemma print_all_log (calls : list (string * string)) (m : Manager) :
  console_log (print_all calls m) = app (console_log m) (map format_line calls).
Proof.
  revert m. induction calls as [|[ts msg] calls IH]; intros m.
  - symmetry. apply app_nil_r.
  - cbn [print_all map]. rewrite IH, print_log, <- app_assoc. reflexivity.
Qed.

Example print_multiline_pushes_nonblank_lines :
  console (print "12:00:00" ("a" ++ String newline (String newline "b"))
             (mkManager [] (Some []) [])) = Some ["12:00:00: a"; "12:00:00: b"].
Proof. reflexivity. Qed.

(** C5 (as stated, refuted): no capacity bounds the console log; for any
    bound N, N+1 print calls leave N+1 lines. *)
Lemma C5_counterexample :
  ~ (exists N : nat, forall (calls : list (string * string)) (m : Manager),
       length (console_log (print_all calls m)) <= N).
Proof.
  intros [N H].
  specialize (H (repeat ("12:00:00", "line") (S N)) (mkManager [] None [])).
  rewrite print_all_log, length_app, length_map, repeat_length in H.
  cbn [console_log length] in H. lia.
Qed.

(** C5 (amended): every print call appends exactly one line
    "timestamp: message" to the console log and no line is ever dropped:
    after any sequence of calls the log is the old log followed by one
    formatted line per call, oldest first. *)
Theorem C5_console_log_appends (calls : list (string * string)) (m : Manager) :
  console_log (print_all calls m) = app (console_log m) (map format_line calls)
  /\ length (console_log (print_all calls m)) = length (console_log m) + length calls.
Proof.
  split.
  - apply print_all_log.
  - rewrite print_all_log, length_app, length_map. reflexivity.
Qed.

(* ------------------------------------------------------------------ *)
(** * Redraw of the inventory *)

(** The redraw as the spec words it: clear, then the empty-store
    placeholder, or one summary row per visible campaign in insertion
    order, or the no-match placeholder when none is visible. *)
Definition spec_refresh_view (campaigns : list (string * CampaignData)) (f : FilterSet)
    : list Row :=
  match campaigns with
  | [] => [EmptyStorePlaceholder]
  | _ :: _ =>
      let shown := List.filter (fun cd => should_show_campaign_with_filters cd f)
                               (map snd campaigns) in
      match shown with
      | [] => [NoMatchesPlaceholder]
      | _ :: _ => flat_map (add_campaign_to_display []) shown
      end
  end.

Lemma add_campaign_to_display_app (view : list Row) (cd : CampaignData) :
  add_campaign_to_display view cd = app view (add_campaign_to_display [] cd).
Proof. reflexivity. Qed.

Lemma display_campaigns_spec (f : FilterSet) (cs : list (string * CampaignData))
    (view : list Row) (n : nat) :
  display_campaigns f cs view n =
  (app view (flat_map (add_campaign_to_display [])
     (List.filter (fun cd => should_show_campaign_with_filters cd f) (map snd cs))),
   n + length (List.filter (fun cd => should_show_campaign_with_filters cd f)
                           (map snd cs))).
Proof.
  revert view n. induction cs as [|[k cd] cs IH]; intros view n.
  - cbn. rewrite app_nil_r, Nat.add_0_r. reflexivity.
  - cbn [display_campaigns map List.filter snd].
    destruct (should_show_campaign_with_filters cd f).
    + rewrite IH. cbn [flat_map length].
      rewrite add_campaign_to_display_app, <- app_assoc. f_equal. lia.
    + apply IH.
Qed.

Lemma campaign_rows_cards (cds : list CampaignData) :
  campaign_rows (flat_map (add_campaign_to_display []) cds) = length cds.
Proof.
  induction cds as [|cd cds IH]; [reflexivity|].
  cbn [flat_map length]. unfold campaign_rows in *.
  rewrite List.filter_app, length_app, IH. reflexivity.
Qed.

(** C6: with the inventory container built, every redraw discards the
    previous rows and yields the spec's view: one empty-store placeholder
    and no campaign row for an empty store; otherwise one summary row per
    visible campaign in insertion order, or the distinct no-match
    placeholder when none is visible. *)
Theorem C6_refresh_rebuilds (campaigns : list (string * CampaignData)) (f : FilterSet)
    (previous : list Row) :
  refresh_inventory_display campaigns f (Some previous) =
    Some (spec_refresh_view campaigns f)
  /\ campaign_rows (spec_refresh_view campaigns f) =
     length (List.filter (fun cd => should_show_campaign_with_filters cd f)
                         (map snd campaigns))
  /\ EmptyStorePlaceholder <> NoMatchesPlaceholder.
Proof.
  split; [|split; [|discriminate]].
  - unfold refresh_inventory_display, spec_refresh_view.
    destruct campaigns as [|c cs]; [reflexivity|].
    rewrite display_campaigns_spec. cbn [app Nat.add].
    destruct (List.filter _ _) as [|cd cds]; reflexivity.
  - unfold spec_refresh_view.
    destruct campaigns as [|c cs]; [reflexivity|].
    destruct (List.filter _ _) as [|cd cds] eqn:E; [reflexivity|].
    apply campaign_rows_cards.
Qed.

Example refresh_one_visible_one_hidden :
  option_map campaign_rows
    (refresh_inventory_display
       [("1", synthetic_data "Active"); ("2", synthetic_data "Expired")]
       (mkFilterSet false false true false false false) (Some [LoadPlaceholder; DebugLabel]))
  = Some 1.
Proof. reflexivity. Qed.

Example refresh_empty_store :
  refresh_inventory_display [] all_off (Some [LoadPlaceholder; DebugLabel])
  = Some [EmptyStorePlaceholder].
Proof. reflexivity. Qed.

(* ------------------------------------------------------------------ *)
(** * Websocket status table *)

(** C7: [update] with neither status nor topics raises [TypeError] before
    touching [_items]; the first update of an index seeds
    {status: "disconnected", topics: 0} and then applies the given fields:
    a first update(idx, topics=t) leaves {status: "disconnected", topics: t},
    and update(idx, status=s) followed by update(idx, topics=t) leaves
    {status: s, topics: t}. *)
Theorem C7_ws_update (items : gmap Z WsItem) (idx : Z) (s : string) (t : Z) :
  MockWebsocketStatus.update items idx None None =
    inl (TypeError "You need to provide at least one of: status, topics")
  /\ (items !! idx = None ->
      exists items1 items2,
        MockWebsocketStatus.update items idx (Some s) None = inr items1
        /\ items1 !! idx = Some (mkWsItem s 0)
        /\ MockWebsocketStatus.update items1 idx None (Some t) = inr items2
        /\ items2 !! idx = Some (mkWsItem s t))
  /\ (items !! idx = None ->
      exists items1,
        MockWebsocketStatus.update items idx None (Some t) = inr items1
        /\ items1 !! idx = Some (mkWsItem "disconnected" t)).
Proof.
  split; [reflexivity|]. split.
  2: { intros Hfresh. unfold MockWebsocketStatus.update. rewrite Hfresh.
       eexists. split; [reflexivity|].
       rewrite lookup_alter_eq, lookup_insert_eq. reflexivity. }
  intros Hfresh. unfold MockWebsocketStatus.update. rewrite Hfresh.
  do 2 eexists. split; [reflexivity|].
  assert (H1 : alter (fun it => mkWsItem s (ws_topics it)) idx
                 (<[idx := mkWsItem "disconnected" 0]> items) !! idx
               = Some (mkWsItem s 0)).
  { rewrite lookup_alter_eq, lookup_insert_eq. reflexivity. }
  split; [exact H1|]. rewrite H1. split; [reflexivity|].
  rewrite lookup_alter_eq, H1. reflexivity.
Qed.

Lemma C7_ws_update_witness :
  exists items1 items2 : gmap Z WsItem,
    MockWebsocketStatus.update ∅ 0%Z (Some "connected") None = inr items1
    /\ items1 !! 0%Z = Some (mkWsItem "connected" 0)
    /\ MockWebsocketStatus.update items1 0%Z None (Some 5%Z) = inr items2
    /\ items2 !! 0%Z = Some (mkWsItem "connected" 5).
Proof.
  destruct (C7_ws_update ∅ 0%Z "connected" 5%Z) as [_ [H _]].
  apply H. reflexivity.
Defined.

(* ------------------------------------------------------------------ *)
(** * The close race of [coro_unless_closed] *)

Section RaceProofs.

Context {A : Type}.

Lemma run_app (s : Race A) (es1 es2 : list (Event A)) :
  run s (es1 ++ es2) = match run s es1 with Some s1 => run s1 es2 | None => None end.
Proof.
  revert s. induction es1 as [|e es1 IH]; intros s; [reflexivity|].
  cbn [app run]. destruct (step s e); [apply IH | reflexivity].
Qed.

Lemma step_flag_mono (s s' : Race A) (e : Event A) :
  step s e = Some s' -> close_flag s = true -> close_flag s' = true.
Proof.
  intros H Hf. unfold step in H.
  repeat case_match; simplify_eq; cbn; auto.
Qed.

Lemma step_close_sets (s s' : Race A) :
  step s Close = Some s' -> close_flag s' = true.
Proof. cbn. intros H. simplify_eq. reflexivity. Qed.

Lemma run_flag_close (s s' : Race A) (es : list (Event A)) :
  run s es = Some s' -> close_flag s = true \/ In Close es -> close_flag s' = true.
Proof.
  revert s. induction es as [|e es IH]; intros s H Hc.
  - cbn in H. simplify_eq. destruct Hc as [Hc|[]]. exact Hc.
  - cbn [run] in H. destruct (step s e) as [s1|] eqn:Hs; [|discriminate].
    apply (IH s1 H). destruct Hc as [Hc|[->|Hc]].
    + left. exact (step_flag_mono s s1 e Hs Hc).
    + left. exact (step_close_sets s s1 Hs).
    + right. exact Hc.
Qed.

(** No close requested: the flag is off, the waiting task cannot have
    finished, and a woken caller was woken by the finished operation. *)
Definition inv_open (s : Race A) : Prop :=
  close_flag s = false
  /\ (forall b, wait_task s <> TDone b)
  /\ (caller s = Woken -> exists a, op_task s = TDone a).

Lemma cancel_not_running {R} (t : TaskState R) : cancel t <> TRunning.
Proof. destruct t; cbn; discriminate. Qed.

Lemma cancel_not_done {R} (t : TaskState R) :
  (forall b, t <> TDone b) -> forall b, cancel t <> TDone b.
Proof. destruct t; cbn; congruence. Qed.

Lemma step_inv_open (s s' : Race A) (e : Event A) :
  inv_open s -> e <> Close -> step s e = Some s' -> inv_open s'.
Proof.
  intros (Hf & Hw & Hc) Hne H.
  destruct e as [a| | |w|[]| |]; [| congruence | | | | | |]; unfold step in H;
    repeat case_match; simplify_eq; unfold inv_open; cbn;
    repeat split; eauto using cancel_not_done; try congruence;
    intros Hwk; destruct (Hc Hwk) as [? ?]; discriminate.
Qed.

Lemma run_inv_open (s s' : Race A) (es : list (Event A)) :
  inv_open s -> ~ In Close es -> run s es = Some s' -> inv_open s'.
Proof.
  revert s. induction es as [|e es IH]; intros s Hi Hn H.
  - cbn in H. simplify_eq. exact Hi.
  - cbn [run] in H. destruct (step s e) as [s1|] eqn:Hs; [|discriminate].
    apply (IH s1); [| intros Hin; apply Hn; right; exact Hin | exact H].
    apply (step_inv_open s s1 e Hi); [| exact Hs].
    intros ->. apply Hn. left. reflexivity.
Qed.

Lemma step_caller_terminal (s s' : Race A) (e : Event A) :
  terminal (caller s) = true -> step s e = Some s' -> caller s' = caller s.
Proof.
  intros Ht H. destruct (caller s) eqn:Ec; try discriminate Ht;
  destruct e as [a| | |w|[]| |]; unfold step in H; rewrite ?Ec in H;
    repeat case_match; simplify_eq; cbn; try rewrite Ec; reflexivity.
Qed.

Lemma run_caller_terminal (s s' : Race A) (es : list (Event A)) :
  terminal (caller s) = true -> run s es = Some s' -> caller s' = caller s.
Proof.
  revert s. induction es as [|e es IH]; intros s Ht H.
  - cbn in H. simplify_eq. reflexivity.
  - cbn [run] in H. destruct (step s e) as [s1|] eqn:Hs; [|discriminate].
    pose proof (step_caller_terminal s s1 e Ht Hs) as E.
    rewrite <- E. apply IH; [rewrite E; exact Ht | exact H].
Qed.

End RaceProofs.

Example race_op_first :
  run (race_init false) [OpFinish 5%Z; Resume OpTask]
  = Some (mkRace (TDone 5%Z) TCancelRequested false (Returned (inl 5%Z))).
Proof. reflexivity. Qed.

Example race_close_first :
  run (race_init false) [Close; WaitWake; Resume WaitTask]
  = Some (mkRace (A := Z) TCancelRequested (TDone true) true Raised).
Proof. reflexivity. Qed.

(** C1 (as stated, refuted): the operation finishes first, but [close()]
    runs on the loop before the caller resumes; [is_set()] is then true
    and the call raises [ExitRequest] instead of returning the result. *)
Lemma C1_counterexample :
  ~ (forall (pre post : list (Event Z)) (a : Z) (s : Race Z),
       ~ In Close pre ->
       run (race_init false) (pre ++ OpFinish a :: post) = Some s ->
       terminal (caller s) = true ->
       caller s = Returned (inl a)).
Proof.
  intros H.
  specialize (H [] [Close; Resume OpTask] 5%Z
                (mkRace (TDone 5%Z) TCancelRequested true Raised)
                (fun Hin => Hin) eq_refl eq_refl).
  discriminate H.
Qed.

(** C1 (amended): the outcome is decided by the close flag when the caller
    resumes. If no close was requested before the call nor before the
    resumption, the call returns the finished operation's result and the
    flag stays off; if a close was requested before the call or at any point
    before the resumption (in particular before the operation finished),
    the call raises [ExitRequest]. *)
Theorem C1_race_outcome {A : Type} (flag0 : bool) (pre : list (Event A)) (w : Which)
    (s : Race A)
    (Hrun : run (race_init flag0) (pre ++ [Resume w]) = Some s) :
  (flag0 = false -> ~ In Close pre ->
     exists a, op_task s = TDone a /\ caller s = Returned (inl a) /\ close_flag s = false)
  /\ (flag0 = true \/ In Close pre -> caller s = Raised).
Proof.
  rewrite run_app in Hrun.
  destruct (run (race_init flag0) pre) as [s1|] eqn:Hpre; [|discriminate].
  cbn [run] in Hrun. destruct (step s1 (Resume w)) as [s2|] eqn:Hs; [|discriminate].
  simplify_eq. split.
  - intros -> Hn.
    assert (Hi : inv_open (race_init (A:=A) false)).
    { split; [reflexivity|split]; [intros b Hb; discriminate Hb | intros Hb; discriminate Hb]. }
    destruct (run_inv_open _ _ _ Hi Hn Hpre) as (Hf & Hw & Hc).
    unfold step in Hs. destruct (caller s1) eqn:Ec; try discriminate Hs.
    destruct (Hc eq_refl) as [a Ha]. rewrite Hf, Ha in Hs.
    destruct w; [| destruct (wait_task s1) eqn:Ew;
                   try discriminate Hs; exfalso; exact (Hw _ eq_refl)].
    simplify_eq. exists a. cbn. repeat split; assumption.
  - intros Hc.
    assert (Hf : close_flag s1 = true).
    { apply (run_flag_close _ _ _ Hpre). destruct Hc as [->|Hc]; [left|right]; auto. }
    unfold step in Hs. destruct (caller s1); try discriminate Hs.
    rewrite Hf in Hs. simplify_eq. reflexivity.
Qed.

Lemma C1_race_outcome_witness :
  exists a : Z,
    op_task (mkRace (TDone 5%Z) TCancelRequested false (Returned (inl 5%Z))) = TDone a
    /\ caller (mkRace (TDone 5%Z) TCancelRequested false (Returned (inl 5%Z)))
       = Returned (inl a)
    /\ close_flag (mkRace (TDone 5%Z) (@TCancelRequested bool) false
                          (Returned (inl 5%Z))) = false.
Proof.
  destruct (C1_race_outcome false [OpFinish 5%Z] OpTask
              (mkRace (TDone 5%Z) TCancelRequested false (Returned (inl 5%Z)))
              eq_refl) as [H _].
  apply H; [reflexivity | intros [Hin|[]]; discriminate Hin].
Defined.

(** C9 (as stated, refuted): when the call returns, the losing task has
    only had [cancel()] requested; it is not awaited, so it is still
    pending cancellation when the caller continues. *)
Lemma C9_counterexample :
  ~ (forall (pre : list (Event Z)) (w : Which) (s : Race Z),
       run (race_init false) (pre ++ [Resume w]) = Some s ->
       ((exists a, op_task s = TDone a) \/ op_task s = TCancelled) /\
       ((exists b, wait_task s = TDone b) \/ wait_task s = TCancelled)).
Proof.
  intros H.
  destruct (H [OpFinish 5%Z] OpTask
               (mkRace (TDone 5%Z) TCancelRequested false (Returned (inl 5%Z)))
               eq_refl) as [_ [[b Hb]|Hb]];
    discriminate Hb.
Qed.

(** C9 (amended): the step that ends the call gives it exactly one
    outcome, and no later event changes it. When the call returns a value
    or raises [ExitRequest], [cancel()] has been requested on every task
    that had not finished, so neither task is still running at that point
    (the cancellation takes effect on a later loop step, and a coroutine
    that catches [CancelledError] goes on running). When the caller is
    cancelled while suspended in [asyncio.wait], the call ends with
    [CancelledError] and neither task is cancelled: both are left as they
    were, so an unfinished operation keeps running. *)
Theorem C9_race_single_outcome {A : Type} (flag0 : bool) (pre : list (Event A))
    (e : Event A) (s1 s : Race A)
    (Hpre : run (race_init flag0) pre = Some s1)
    (Hopen : terminal (caller s1) = false)
    (Hstep : step s1 e = Some s)
    (Hend : terminal (caller s) = true) :
  (((caller s = Raised \/ exists r, caller s = Returned r)
    /\ op_task s <> TRunning /\ wait_task s <> TRunning)
   \/ (caller s = CallerCancelled /\ op_task s = op_task s1 /\ wait_task s = wait_task s1))
  /\ (forall (post : list (Event A)) (s' : Race A),
        run s post = Some s' -> caller s' = caller s).
Proof.
  split; [| intros post s' H; exact (run_caller_terminal s s' post Hend H)].
  clear Hpre.
  destruct e as [a| | |w|[]| |]; unfold step, wake in Hstep;
    repeat case_match; simplify_eq; cbn in *; try congruence.
  all: first
    [ right; repeat split; reflexivity
    | left; split; [first [left; reflexivity | right; eexists; reflexivity]|];
      split; first [apply cancel_not_running | discriminate] ].
Qed.

Lemma C9_race_single_outcome_witness :
  op_task (mkRace (A := Z) TRunning TRunning false CallerCancelled)
  = op_task (race_init (A := Z) false).
Proof.
  destruct (C9_race_single_outcome (A := Z) false [] CancelCaller (race_init false)
              (mkRace TRunning TRunning false CallerCancelled)
              eq_refl eq_refl eq_refl eq_refl)
    as [[[[H|[r H]] _]|[_ [H _]]] _].
  - discriminate H.
  - discriminate H.
  - exact H.
Defined.

(* ================================================================== *)
(** * Further parts of the web interface *)

(* ------------------------------------------------------------------ *)
(** ** Python dict assignment on [manager._campaigns]

    [d[k] = v] replaces the value of an existing key in place and appends
    a new key at the end of the iteration order. *)

Fixpoint dict_set {V} (k : string) (v : V) (d : list (string * V)) : list (string * V) :=
  match d with
  | [] => [(k, v)]
  | (k', v') :: rest =>
      if String.eqb k k' then (k', v) :: rest else (k', v') :: dict_set k v rest
  end.

Fixpoint dict_get {V} (k : string) (d : list (string * V)) : option V :=
  match d with
  | [] => None
  | (k', v') :: rest => if String.eqb k k' then Some v' else dict_get k rest
  end.

(** The inventory side of the manager: [_campaigns], [_inventory_filters]
    and [_inventory_container]; the console lines are left out, as in
    [refresh_inventory_display]. *)
Record Inventory := mkInventory {
  inv_campaigns : list (string * CampaignData);
  inv_filters : FilterSet;
  inv_container : option (list Row)
}.

(** The redraw after a change of the store, done only when the container
    exists ([hasattr(...) and manager._inventory_container]). *)
Definition redraw_if_built (cs : list (string * CampaignData)) (f : FilterSet)
    (container : option (list Row)) : option (list Row) :=
  match container with
  | Some _ => refresh_inventory_display cs f container
  | None => None
  end.

(* ------------------------------------------------------------------ *)
(** ** Clock-dependent texts

    Instants are integers of microseconds; [a - b] of two aware datetimes
    is the timedelta of [a - b] microseconds, whose [days] is the floor of
    the quotient by a day, [seconds] the whole seconds of the rest, and
    [total_seconds() > 0] holds iff the difference is positive. *)

Section Clock.
Local Open Scope Z_scope.

Definition us_per_day : Z := 86400000000.

Definition td_days (us : Z) : Z := us / us_per_day.
Definition td_seconds (us : Z) : Z := (us mod us_per_day) / 1000000.

(** [MockInventory._get_time_remaining]: [ends_at] is [None] when the
    campaign has no [ends_at] or it is falsy. *)
Definition mock_get_time_remaining (ends_at : option Z) (now : Z) : string :=
  match ends_at with
  | None => ""
  | Some e =>
      let remaining := e - now in
      if Z.ltb 0 remaining then
        let days := td_days remaining in
        let hours := td_seconds remaining / 3600 in
        let remainder := td_seconds remaining mod 3600 in
        let minutes := remainder / 60 in
        if Z.ltb 0 days then
          pretty days ++ "d " ++ pretty hours ++ "h " ++ pretty minutes ++ "m"
        else if Z.ltb 0 hours then pretty hours ++ "h " ++ pretty minutes ++ "m"
        else pretty minutes ++ "m"
      else "Expired"
  end.

(** [format_time_remaining] of [webui/utils.py]: [ends_at]/[starts_at] are
    [None] when the attribute is missing and [Some None] when it holds
    [None] ([None - now] raises [TypeError], caught: ""); [pytz_importable]
    is whether [import pytz] succeeds (an [ImportError] is caught and gives
    ""). *)
Definition format_time_remaining (c : Campaign) (ends_at starts_at : option (option Z))
    (now : Z) (pytz_importable : bool) : string :=
  let upcoming_branch :=
    match default false (c_upcoming c), starts_at with
    | true, Some starts =>
        if negb pytz_importable then "" else
        match starts with
        | None => ""
        | Some s =>
            let time_diff := s - now in
            if Z.ltb 0 time_diff then
              let days := td_days time_diff in
              let hours := td_seconds time_diff / 3600 in
              if Z.ltb 0 days then "Starts in " ++ pretty days ++ "d " ++ pretty hours ++ "h"
              else "Starts in " ++ pretty hours ++ "h"
            else ""
        end
    | _, _ => ""
    end in
  match default false (c_active c), ends_at with
  | true, Some ends =>
      if negb pytz_importable then "" else
      match ends with
      | None => ""
      | Some e =>
          let time_diff := e - now in
          if Z.ltb 0 time_diff then
            let days := td_days time_diff in
            let hours := td_seconds time_diff / 3600 in
            let remainder := td_seconds time_diff mod 3600 in
            let minutes := remainder / 60 in
            if Z.ltb 0 days then
              pretty days ++ "d " ++ pretty hours ++ "h " ++ pretty minutes ++ "m"
            else if Z.ltb 0 hours then pretty hours ++ "h " ++ pretty minutes ++ "m"
            else pretty minutes ++ "m"
          else ""
      end
  | _, _ => upcoming_branch
  end.

End Clock.

(* ------------------------------------------------------------------ *)
(** ** webui/mock_classes.py: [MockInventory.add_campaign] and [clear]

    [progress_attr] is [getattr(campaign, 'progress', 0)] ([None]: no such
    attribute); [ends_at] and [now] feed [_get_time_remaining]. *)

Definition mock_campaign_data (c : Campaign) (progress_attr : option Q)
    (ends_at : option Z) (now : Z) : CampaignData :=
  {| cd_name := Some (c_name c);
     cd_game := Some (match c_game c with
                      | Some g => default "Unknown Game" (game_name g)
                      | None => "Unknown Game"
                      end);
     cd_status := Some (MockInventory.get_campaign_status c);
     cd_progress := default 0%Q progress_attr;
     cd_time_remaining := mock_get_time_remaining ends_at now;
     campaign_obj := Some c |}.

Definition add_campaign (st : Inventory) (c : Campaign) (progress_attr : option Q)
    (ends_at : option Z) (now : Z) : Inventory :=
  let campaign_data := mock_campaign_data c progress_attr ends_at now in
  let cs := dict_set (c_id c) campaign_data (inv_campaigns st) in
  mkInventory cs (inv_filters st) (redraw_if_built cs (inv_filters st) (inv_container st)).

Definition inventory_clear (st : Inventory) : Inventory :=
  mkInventory [] (inv_filters st) (redraw_if_built [] (inv_filters st) (inv_container st)).

(* ------------------------------------------------------------------ *)
(** ** webui/components/inventory_panel.py: [refresh_inventory] and
    [update_filter]

    [inventory] is [manager._twitch.inventory] when present and truthy.
    [campaign.game] is read without a [hasattr] guard: a campaign without
    [game] raises [AttributeError] out of the loop, after the store was
    cleared and partly refilled, and no redraw happens. The result carries
    whether that exception escaped. *)

Fixpoint ingest_all (time_remaining_of : Campaign -> string) (inventory : list Campaign)
    (cs : list (string * CampaignData)) : list (string * CampaignData) * bool :=
  match inventory with
  | [] => (cs, false)
  | c :: rest =>
      match c_game c with
      | None => (cs, true)
      | Some _ =>
          ingest_all time_remaining_of rest
            (dict_set (c_id c) (ingest_campaign c (time_remaining_of c)) cs)
      end
  end.

Definition refresh_inventory (time_remaining_of : Campaign -> string)
    (inventory : option (list Campaign)) (st : Inventory) : Inventory * bool :=
  let cs := @nil (string * CampaignData) in
  let '(cs, raised) :=
    match inventory with
    | Some inv => ingest_all time_remaining_of inv cs
    | None => (cs, false)
    end in
  if raised then (mkInventory cs (inv_filters st) (inv_container st), true)
  else (mkInventory cs (inv_filters st)
          (refresh_inventory_display cs (inv_filters st) (inv_container st)), false).

(** The six checkbox names passed to [update_filter]. *)
Inductive FilterName := FNotLinked | FUpcoming | FActive | FExpired | FExcluded | FFinished.

Definition set_filter (f : FilterSet) (n : FilterName) (value : bool) : FilterSet :=
  match n with
  | FNotLinked => mkFilterSet value (upcoming f) (active f) (expired f) (excluded f) (finished f)
  | FUpcoming => mkFilterSet (not_linked f) value (active f) (expired f) (excluded f) (finished f)
  | FActive => mkFilterSet (not_linked f) (upcoming f) value (expired f) (excluded f) (finished f)
  | FExpired => mkFilterSet (not_linked f) (upcoming f) (active f) value (excluded f) (finished f)
  | FExcluded => mkFilterSet (not_linked f) (upcoming f) (active f) (expired f) value (finished f)
  | FFinished => mkFilterSet (not_linked f) (upcoming f) (active f) (expired f) (excluded f) value
  end.

Definition update_filter (st : Inventory) (n : FilterName) (value : bool) : Inventory :=
  let f := set_filter (inv_filters st) n value in
  mkInventory (inv_campaigns st) f
    (refresh_inventory_display (inv_campaigns st) f (inv_container st)).

(* ------------------------------------------------------------------ *)
(** ** webui/mock_classes.py: [MockWebsocketStatus.remove] *)

Definition ws_remove (items : gmap Z WsItem) (idx : Z) : gmap Z WsItem :=
  match items !! idx with
  | Some _ => delete idx items
  | None => items
  end.

(* ------------------------------------------------------------------ *)
(** ** webui/components/main_panel.py: [clear_drop] and [display_drop]

    The progress bar value and the progress label, [None] before the main
    tab is built; [drop_progress]/[drop_name] are [None] when the drop has
    no such attribute. *)

Record MainPanel := mkMainPanel {
  progress_bar : option Q;
  progress_label : option string
}.

Record DropView := mkDropView {
  drop_progress : option Q;
  drop_name : option string
}.

Definition clear_drop (p : MainPanel) : MainPanel :=
  mkMainPanel (option_map (fun _ => 0%Q) (progress_bar p))
              (option_map (fun _ => "No active drops") (progress_label p)).

Definition display_drop (p : MainPanel) (drop : option DropView) : MainPanel :=
  match drop with
  | None => clear_drop p
  | Some d =>
      let bar :=
        match drop_progress d, progress_bar p with
        | Some pr, Some _ => Some (if Qle_bool pr 100 then (pr / 100)%Q else pr)
        | _, b => b
        end in
      let label :=
        match progress_label p with
        | Some _ => Some (match drop_name d with
                          | Some n => "Mining: " ++ n
                          | None => "Mining drop..."
                          end)
        | None => None
        end in
      mkMainPanel bar label
  end.

(* ------------------------------------------------------------------ *)
(** ** webui/manager.py: the close flag and the running flag

    [close()] sets [_close_requested] (and returns 0); [prevent_close()]
    clears it and prints a notice (its argument is the [%X] timestamp of
    that [print]); [start()]/[stop()] set [_running]. *)

Inductive LifecycleCall :=
  | CallClose
  | CallPreventClose (timestamp : string)
  | CallStart
  | CallStop.

Record Lifecycle := mkLifecycle {
  close_requested : bool;
  running : bool;
  lc_manager : Manager
}.

Definition prevent_close_notice : string :=
  "Application prevented from closing due to error state".

Definition lifecycle_step (l : Lifecycle) (call : LifecycleCall) : Lifecycle :=
  match call with
  | CallClose => mkLifecycle true (running l) (lc_manager l)
  | CallPreventClose ts =>
      mkLifecycle false (running l) (print ts prevent_close_notice (lc_manager l))
  | CallStart => mkLifecycle (close_requested l) true (lc_manager l)
  | CallStop => mkLifecycle (close_requested l) false (lc_manager l)
  end.

Definition lifecycle_run (l : Lifecycle) (calls : list LifecycleCall) : Lifecycle :=
  fold_left lifecycle_step calls l.

(* ------------------------------------------------------------------ *)
(** ** webui/manager.py: [WebUIManager.print] with failing pushes

    [print] above assumes every [self._console.push] succeeds. Here
    [push_error line] is [Some e] when pushing [line] raises an exception
    whose [str] is [e]: the loop stops there, the lines already pushed stay,
    and the [except] branch prints the formatted message with the reason
    to stdout. *)

Fixpoint push_segments (push_error : string -> option string) (timestamp : string)
    (segments pushed : list string) : list string * option string :=
  match segments with
  | [] => (pushed, None)
  | line :: rest =>
      if strip_nonempty line then
        match push_error (timestamp ++ ": " ++ line) with
        | Some e => (pushed, Some e)
        | None => push_segments push_error timestamp rest (app pushed [timestamp ++ ": " ++ line])
        end
      else push_segments push_error timestamp rest pushed
  end.

Definition print_with_push (push_error : string -> option string)
    (timestamp message : string) (m : Manager) : Manager :=
  let formatted_message := timestamp ++ ": " ++ message in
  let console_log' := app (console_log m) [formatted_message] in
  match console m with
  | Some pushed =>
      let '(pushed', failure) :=
        if str_contains newline message
        then push_segments push_error timestamp (str_split newline message) pushed
        else match push_error formatted_message with
             | Some e => (pushed, Some e)
             | None => (app pushed [formatted_message], None)
             end in
      match failure with
      | Some e =>
          mkManager console_log' (Some pushed')
            (app (stdout m) [formatted_message ++ " (UI update failed: " ++ e ++ ")"])
      | None => mkManager console_log' (Some pushed') (stdout m)
      end
  | None => mkManager console_log' None (app (stdout m) [formatted_message])
  end.

(** [sep.join(parts)] for a one-character separator. *)
Fixpoint str_join (sep : ascii) (parts : list string) : string :=
  match parts with
  | [] => ""
  | [p] => p
  | p :: rest => p ++ String sep (str_join sep rest)
  end.

(* ------------------------------------------------------------------ *)
(** ** Properties of the campaign store and its redraws *)

Lemma dict_get_set_eq {V} (k : string) (v : V) (d : list (string * V)) :
  dict_get k (dict_set k v d) = Some v.
Proof.
  induction d as [|[k' v'] d IH]; cbn [dict_set dict_get].
  - rewrite String.eqb_refl. reflexivity.
  - destruct (String.eqb k k') eqn:E; cbn [dict_get]; rewrite E; [reflexivity|exact IH].
Qed.

Lemma dict_get_set_ne {V} (k k' : string) (v : V) (d : list (string * V)) :
  k' <> k -> dict_get k' (dict_set k v d) = dict_get k' d.
Proof.
  intros Hne. induction d as [|[k0 v0] d IH]; cbn [dict_set dict_get].
  - destruct (String.eqb k' k) eqn:E; [apply String.eqb_eq in E; congruence|reflexivity].
  - destruct (String.eqb k k0) eqn:E; cbn [dict_get].
    + apply String.eqb_eq in E. subst k0.
      destruct (String.eqb k' k) eqn:E'; [apply String.eqb_eq in E'; congruence|reflexivity].
    + destruct (String.eqb k' k0); [reflexivity|exact IH].
Qed.

Lemma dict_keys_set {V} (k : string) (v : V) (d : list (string * V)) :
  map fst (dict_set k v d) =
  match dict_get k d with Some _ => map fst d | None => app (map fst d) [k] end.
Proof.
  induction d as [|[k' v'] d IH]; [reflexivity|].
  cbn [dict_set dict_get]. destruct (String.eqb k k') eqn:E; [reflexivity|].
  cbn [map fst]. rewrite IH. destruct (dict_get k d); reflexivity.
Qed.

Lemma dict_keys_set_in {V} (k x : string) (v : V) (d : list (string * V)) :
  In x (map fst (dict_set k v d)) -> x = k \/ In x (map fst d).
Proof.
  rewrite dict_keys_set. destruct (dict_get k d); [right; exact H|].
  intros H. apply in_app_or in H. destruct H as [H|[H|[]]]; [right|left]; auto.
Qed.

Lemma dict_set_nodup {V} (k : string) (v : V) (d : list (string * V)) :
  List.NoDup (map fst d) -> List.NoDup (map fst (dict_set k v d)).
Proof.
  induction d as [|[k' v'] d IH]; intros Hnd.
  - constructor; [intros []|constructor].
  - cbn [dict_set]. inversion Hnd as [|? ? Hnin Hnd']; subst.
    destruct (String.eqb k k') eqn:E; [exact Hnd|].
    cbn [map fst]. constructor; [|exact (IH Hnd')].
    intros Hin. apply dict_keys_set_in in Hin. destruct Hin as [->|Hin].
    + rewrite String.eqb_refl in E. discriminate.
    + exact (Hnin Hin).
Qed.

Lemma refresh_view_eq (cs : list (string * CampaignData)) (f : FilterSet) (v : list Row) :
  refresh_inventory_display cs f (Some v) = Some (spec_refresh_view cs f).
Proof.
  unfold refresh_inventory_display, spec_refresh_view.
  destruct cs as [|c cs]; [reflexivity|].
  rewrite display_campaigns_spec. cbn [app Nat.add].
  destruct (List.filter _ _); reflexivity.
Qed.

(** [add_campaign] stores the campaign's data under its id: a new id is
    appended to the store's order, a known id keeps its place and gets the
    new data, every other entry is untouched, and a built view is redrawn
    from the new store. *)
Theorem add_campaign_store (st : Inventory) (c : Campaign) (progress_attr : option Q)
    (ends_at : option Z) (now : Z) :
  let st' := add_campaign st c progress_attr ends_at now in
  dict_get (c_id c) (inv_campaigns st') = Some (mock_campaign_data c progress_attr ends_at now)
  /\ (forall k, k <> c_id c -> dict_get k (inv_campaigns st') = dict_get k (inv_campaigns st))
  /\ map fst (inv_campaigns st') =
       match dict_get (c_id c) (inv_campaigns st) with
       | Some _ => map fst (inv_campaigns st)
       | None => app (map fst (inv_campaigns st)) [c_id c]
       end
  /\ inv_container st' =
       option_map (fun _ => spec_refresh_view (inv_campaigns st') (inv_filters st))
                  (inv_container st).
Proof.
  cbn zeta. unfold add_campaign; cbn [inv_campaigns inv_container inv_filters].
  split; [apply dict_get_set_eq|]. split; [intros k Hk; apply dict_get_set_ne; exact Hk|].
  split; [apply dict_keys_set|].
  unfold redraw_if_built. destruct (inv_container st); [apply refresh_view_eq|reflexivity].
Qed.

Lemma add_campaign_store_witness :
  dict_get "c2"
    (inv_campaigns (add_campaign (mkInventory [] all_off None)
       (sample_campaign None (Some true) None None None) None None 0%Z)) = None.
Proof.
  destruct (add_campaign_store (mkInventory [] all_off None)
              (sample_campaign None (Some true) None None None) None None 0%Z)
    as [_ [H _]].
  rewrite (H "c2"); [reflexivity | discriminate].
Defined.

(** [MockInventory.clear], and [refresh_inventory] when the client has no
    inventory, leave an empty store and, when the container is built, a view
    holding only the empty-store placeholder. *)
Theorem clear_empties_store (st : Inventory) (time_remaining_of : Campaign -> string) :
  inventory_clear st =
    mkInventory [] (inv_filters st)
      (option_map (fun _ => [EmptyStorePlaceholder]) (inv_container st))
  /\ refresh_inventory time_remaining_of None st =
    (mkInventory [] (inv_filters st)
       (option_map (fun _ => [EmptyStorePlaceholder]) (inv_container st)), false).
Proof.
  unfold inventory_clear, refresh_inventory, redraw_if_built.
  destruct (inv_container st); split; reflexivity.
Qed.

(** The store [refresh_inventory] builds from a list of campaigns. *)
Definition ingest_store (time_remaining_of : Campaign -> string) (inventory : list Campaign)
    (cs : list (string * CampaignData)) : list (string * CampaignData) :=
  fold_left (fun cs c => dict_set (c_id c) (ingest_campaign c (time_remaining_of c)) cs)
            inventory cs.

(** The last campaign of a list with a given id. *)
Fixpoint last_with_id (k : string) (l : list Campaign) : option Campaign :=
  match l with
  | [] => None
  | c :: rest =>
      match last_with_id k rest with
      | Some c' => Some c'
      | None => if String.eqb k (c_id c) then Some c else None
      end
  end.

Lemma ingest_all_games (tr : Campaign -> string) (inv : list Campaign)
    (cs : list (string * CampaignData)) :
  Forall (fun c => c_game c <> None) inv -> ingest_all tr inv cs = (ingest_store tr inv cs, false).
Proof.
  revert cs. induction inv as [|c inv IH]; intros cs Hg; [reflexivity|].
  inversion Hg as [|? ? Hc Hg']; subst. cbn [ingest_all].
  destruct (c_game c) eqn:E; [|congruence]. apply IH. exact Hg'.
Qed.

Lemma ingest_store_get (tr : Campaign -> string) (inv : list Campaign)
    (cs : list (string * CampaignData)) (k : string) :
  dict_get k (ingest_store tr inv cs) =
  match last_with_id k inv with
  | Some c => Some (ingest_campaign c (tr c))
  | None => dict_get k cs
  end.
Proof.
  revert cs. induction inv as [|c inv IH]; intros cs; [reflexivity|].
  unfold ingest_store in *. cbn [fold_left last_with_id]. rewrite IH.
  destruct (last_with_id k inv); [reflexivity|].
  destruct (String.eqb k (c_id c)) eqn:E.
  - apply String.eqb_eq in E. subst k. apply dict_get_set_eq.
  - apply dict_get_set_ne. intros ->. rewrite String.eqb_refl in E. discriminate.
Qed.

Lemma ingest_store_nodup (tr : Campaign -> string) (inv : list Campaign)
    (cs : list (string * CampaignData)) :
  List.NoDup (map fst cs) -> List.NoDup (map fst (ingest_store tr inv cs)).
Proof.
  revert cs. induction inv as [|c inv IH]; intros cs H; [exact H|].
  apply IH. apply dict_set_nodup. exact H.
Qed.

(** When every campaign of the inventory has a [game], [refresh_inventory]
    rebuilds the store from scratch: its ids are distinct, each id holds the
    data of the last inventory campaign with that id, and a built view is
    redrawn from it. *)
Theorem refresh_inventory_loads (tr : Campaign -> string) (inv : list Campaign)
    (st : Inventory) (Hgames : Forall (fun c => c_game c <> None) inv) :
  let cs := ingest_store tr inv [] in
  refresh_inventory tr (Some inv) st =
    (mkInventory cs (inv_filters st)
       (option_map (fun _ => spec_refresh_view cs (inv_filters st)) (inv_container st)),
     false)
  /\ List.NoDup (map fst cs)
  /\ (forall k, dict_get k cs = option_map (fun c => ingest_campaign c (tr c))
                                           (last_with_id k inv)).
Proof.
  cbn zeta. split; [|split].
  - unfold refresh_inventory. rewrite ingest_all_games by exact Hgames.
    destruct (inv_container st); [rewrite refresh_view_eq|]; reflexivity.
  - apply ingest_store_nodup. constructor.
  - intros k. rewrite ingest_store_get. destruct (last_with_id k inv); reflexivity.
Qed.

Lemma refresh_inventory_loads_witness :
  dict_get "c1" (ingest_store (fun _ => "") [sample_campaign None (Some true) None None None] [])
  = Some (ingest_campaign (sample_campaign None (Some true) None None None) "").
Proof.
  assert (Hg : Forall (fun c => c_game c <> None)
                 [sample_campaign None (Some true) None None None])
    by (constructor; [discriminate|constructor]).
  destruct (refresh_inventory_loads (fun _ => "") [sample_campaign None (Some true) None None None]
              (mkInventory [] all_off None) Hg) as [_ [_ H]].
  rewrite H. reflexivity.
Defined.

Lemma ingest_all_raise (tr : Campaign -> string) (pre : list Campaign) (c : Campaign)
    (post : list Campaign) (cs : list (string * CampaignData)) :
  Forall (fun c => c_game c <> None) pre -> c_game c = None ->
  ingest_all tr (app pre (c :: post)) cs = (ingest_store tr pre cs, true).
Proof.
  revert cs. induction pre as [|c0 pre IH]; intros cs Hpre Hc.
  - cbn [app ingest_all]. rewrite Hc. reflexivity.
  - inversion Hpre as [|? ? H0 Hpre']; subst. cbn [app ingest_all].
    destruct (c_game c0) eqn:E; [|congruence]. apply IH; assumption.
Qed.

(** A campaign without a [game] makes [refresh_inventory] raise: the store
    has been cleared and holds only the campaigns before it (the rest of the
    inventory is never read), and the view is not redrawn. *)
Theorem refresh_inventory_missing_game (tr : Campaign -> string) (pre : list Campaign)
    (c : Campaign) (post : list Campaign) (st : Inventory)
    (Hpre : Forall (fun c => c_game c <> None) pre) (Hc : c_game c = None) :
  refresh_inventory tr (Some (app pre (c :: post))) st =
    (mkInventory (ingest_store tr pre []) (inv_filters st) (inv_container st), true).
Proof.
  unfold refresh_inventory. rewrite ingest_all_raise by assumption. reflexivity.
Qed.

Lemma refresh_inventory_missing_game_witness :
  snd (refresh_inventory (fun _ => "")
         (Some (app [] (mkCampaign "c9" "No Game" None None None None None None :: [])))
         (mkInventory [] all_off (Some [LoadPlaceholder]))) = true.
Proof.
  rewrite (refresh_inventory_missing_game (fun _ => "") []
             (mkCampaign "c9" "No Game" None None None None None None) []
             (mkInventory [] all_off (Some [LoadPlaceholder])) ltac:(constructor) eq_refl).
  reflexivity.
Defined.

(** [update_filter] keeps the store, sets only the named checkbox, redraws a
    built view from the store under the new filters, and of two successive
    updates of the same checkbox the last one wins. *)
Theorem update_filter_redraws (st : Inventory) (n : FilterName) (value value' : bool) :
  inv_campaigns (update_filter st n value) = inv_campaigns st
  /\ inv_filters (update_filter st n value) = set_filter (inv_filters st) n value
  /\ inv_container (update_filter st n value) =
       option_map (fun _ => spec_refresh_view (inv_campaigns st)
                              (set_filter (inv_filters st) n value))
                  (inv_container st)
  /\ update_filter (update_filter st n value) n value' = update_filter st n value'.
Proof.
  destruct st as [cs [a b c d e g] cont].
  unfold update_filter; cbn [inv_campaigns inv_filters inv_container].
  split; [reflexivity|]. split; [reflexivity|].
  split; [destruct cont; [apply refresh_view_eq|reflexivity]|].
  destruct n, cont; cbn [set_filter not_linked upcoming active expired excluded finished];
    rewrite ?refresh_view_eq; reflexivity.
Qed.

(** Turning a checkbox on never hides a campaign that was shown, except the
    "not linked" checkbox, which can hide a campaign of the inventory. *)
Theorem filter_enable_monotone (cd : CampaignData) (f : FilterSet) (n : FilterName)
    (Hshown : should_show_campaign_with_filters cd f = true)
    (Hn : campaign_obj cd = None \/ n <> FNotLinked) :
  should_show_campaign_with_filters cd (set_filter f n true) = true.
Proof.
  revert Hshown Hn. unfold should_show_campaign_with_filters. cbv zeta.
  set (s := str_lower (default "" (cd_status cd))).
  destruct f as [a b c d e g]; destruct n; unfold set_filter;
    cbn [not_linked upcoming active expired excluded finished];
    destruct (campaign_obj cd) as [o|];
    try destruct (default true (c_eligible o));
    split_eqb; destruct a, b, c, d, e, g; cbn;
    intros H1 H2; try reflexivity; try discriminate H1;
    (destruct H2 as [H2|H2]; [discriminate H2|congruence]).
Qed.

Lemma filter_enable_monotone_witness :
  should_show_campaign_with_filters (synthetic_data "Active")
    (set_filter (mkFilterSet false false true false false false) FUpcoming true) = true.
Proof.
  apply (filter_enable_monotone (synthetic_data "Active")
           (mkFilterSet false false true false false false) FUpcoming).
  - vm_compute. reflexivity.
  - left. reflexivity.
Defined.

(** The "excluded" checkbox never changes whether a campaign of the
    inventory is shown; for a synthetic entry it only matters when it is
    the only checkbox on. *)
Theorem excluded_flag_scope (cd : CampaignData) (f : FilterSet) (x : bool) :
  (campaign_obj cd <> None ->
     should_show_campaign_with_filters cd (set_filter f FExcluded x) =
     should_show_campaign_with_filters cd f)
  /\ (not_linked f || upcoming f || active f || expired f || finished f = true ->
     should_show_campaign_with_filters cd (set_filter f FExcluded x) =
     should_show_campaign_with_filters cd f).
Proof.
  unfold should_show_campaign_with_filters, set_filter. cbv zeta.
  set (s := str_lower (default "" (cd_status cd))).
  destruct f as [a b c d e g]; cbn [not_linked upcoming active expired excluded finished].
  destruct (campaign_obj cd) as [o|].
  - split; intros _; reflexivity.
  - split; [intros H; congruence|].
    destruct a, b, c, d, e, g, x; cbn; intros H; try discriminate H; reflexivity.
Qed.

Lemma excluded_flag_scope_witness :
  should_show_campaign_with_filters (live_data "Unknown" (sample_campaign None (Some true) None None None))
    (set_filter all_off FExcluded true) =
  should_show_campaign_with_filters (live_data "Unknown" (sample_campaign None (Some true) None None None))
    all_off.
Proof.
  apply (proj1 (excluded_flag_scope
                  (live_data "Unknown" (sample_campaign None (Some true) None None None))
                  all_off true)).
  discriminate.
Defined.

(** The dead [webui.py] filter and the [webui/utils.py] filter that is
    actually imported: every campaign the former shows, the latter shows;
    the latter shows a campaign the former hides exactly when it is a
    campaign of the inventory not hidden by "not linked", outside every
    lifecycle bucket, whose game is in the exclude list while "excluded"
    is off. *)
Theorem legacy_filter_vs_utils (exclude : option (list string)) (f : FilterSet)
    (cd : CampaignData) :
  (LegacyWebUI.should_show_campaign exclude f cd = true ->
     should_show_campaign_with_filters cd f = true)
  /\ (should_show_campaign_with_filters cd f = true
      /\ LegacyWebUI.should_show_campaign exclude f cd = false
      <-> exists c g l, campaign_obj cd = Some c
                    /\ not_linked f && negb (default true (c_eligible c)) = false
                    /\ is_bucket (status_of cd) = false
                    /\ c_game c = Some g /\ exclude = Some l
                    /\ In (default "" (game_name g)) l /\ excluded f = false).
Proof.
  unfold LegacyWebUI.should_show_campaign, should_show_campaign_with_filters,
    is_bucket, status_of. cbv zeta.
  set (s := str_lower (default "" (cd_status cd))).
  destruct (campaign_obj cd) as [o|].
  2: { split; [intros H; exact H|]. split.
       - intros [H1 H2]. congruence.
       - intros (c & g & l & Ho & _). discriminate Ho. }
  destruct (not_linked f && negb (default true (c_eligible o))) eqn:Enl.
  { split; [intros H; exact H|]. split.
    - intros [H _]. discriminate H.
    - intros (c & g & l & Ho & Hn & _). injection Ho as <-. congruence. }
  split_eqb; cbn [orb];
    try (split; [intros H; exact H|]; split;
         [intros [H1 H2]; congruence | intros (c & g & l & _ & _ & Hb & _); discriminate Hb]).
  split; [intros; reflexivity|]. split.
  - intros [_ H].
    destruct (c_game o) as [g|] eqn:Eg; destruct exclude as [l|]; try discriminate H.
    destruct (existsb (String.eqb (default "" (game_name g))) l) eqn:Ex;
      destruct (excluded f); cbn in H; try discriminate H.
    apply existsb_exists in Ex. destruct Ex as [y [Hy Hy']].
    apply String.eqb_eq in Hy'. subst y.
    exists o, g, l. repeat split; first [reflexivity | assumption].
  - intros (c & g & l & Ho & _ & _ & Hg & He & Hin & Hx). injection Ho as <-.
    rewrite Hg, He, Hx. split; [reflexivity|].
    assert (Ex : existsb (String.eqb (default "" (game_name g))) l = true).
    { apply existsb_exists. exists (default "" (game_name g)).
      split; [exact Hin | apply String.eqb_refl]. }
    rewrite Ex. reflexivity.
Qed.

Lemma legacy_filter_vs_utils_witness :
  should_show_campaign_with_filters (live_data "Unknown" (sample_campaign None (Some false) None None None))
    all_off = true
  /\ LegacyWebUI.should_show_campaign (Some ["Some Game"]) all_off
       (live_data "Unknown" (sample_campaign None (Some false) None None None)) = false.
Proof.
  apply (proj2 (proj2 (legacy_filter_vs_utils (Some ["Some Game"]) all_off
                  (live_data "Unknown" (sample_campaign None (Some false) None None None))))).
  exists (sample_campaign None (Some false) None None None), (mkGame (Some "Some Game")),
    ["Some Game"].
  repeat split; try reflexivity. left. reflexivity.
Defined.

(* ------------------------------------------------------------------ *)
(** ** Properties of the websocket status table *)

(** The entry [update] starts from: the stored one, or the seed. *)
Definition ws_seed (items : gmap Z WsItem) (idx : Z) : WsItem :=
  match items !! idx with
  | Some it => it
  | None => mkWsItem "disconnected" 0
  end.

Lemma ws_update_lookup (items items' : gmap Z WsItem) (idx : Z)
    (status : option string) (topics : option Z) :
  MockWebsocketStatus.update items idx status topics = inr items' ->
  (forall j, j <> idx -> items' !! j = items !! j)
  /\ items' !! idx =
       Some (mkWsItem (match status with Some s => s | None => ws_status (ws_seed items idx) end)
                      (match topics with Some t => t | None => ws_topics (ws_seed items idx) end)).
Proof.
  unfold MockWebsocketStatus.update, ws_seed. intros H.
  destruct status as [s|], topics as [t|]; try discriminate H;
    injection H as <-; split.
  all: try (intros j Hj; rewrite ?lookup_alter_ne by congruence;
            destruct (items !! idx) eqn:E; [reflexivity|];
            rewrite lookup_insert_ne by congruence; reflexivity).
  all: rewrite ?lookup_alter_eq; destruct (items !! idx) as [w|] eqn:E;
       rewrite ?lookup_insert_eq, ?E; reflexivity.
Qed.

(** A successful [update] changes only the entry at [idx]; there, a field
    that is not passed keeps its stored value (or the seed's on a new
    index). *)
Theorem ws_update_frame (items items' : gmap Z WsItem) (idx : Z)
    (status : option string) (topics : option Z)
    (Hok : MockWebsocketStatus.update items idx status topics = inr items') :
  (forall j, j <> idx -> items' !! j = items !! j)
  /\ items' !! idx =
       Some (mkWsItem (match status with Some s => s | None => ws_status (ws_seed items idx) end)
                      (match topics with Some t => t | None => ws_topics (ws_seed items idx) end)).
Proof. exact (ws_update_lookup items items' idx status topics Hok). Qed.

Lemma ws_update_frame_witness :
  exists items' : gmap Z WsItem,
    MockWebsocketStatus.update (<[0%Z := mkWsItem "connected" 5]> ∅) 0%Z None (Some 7%Z)
      = inr items'
    /\ items' !! 0%Z = Some (mkWsItem "connected" 7).
Proof.
  eexists. split; [reflexivity|].
  destruct (ws_update_frame (<[0%Z := mkWsItem "connected" 5]> ∅) _ 0%Z None (Some 7%Z) eq_refl)
    as [_ H].
  rewrite H. reflexivity.
Defined.

(** [remove] deletes the entry at [idx] and nothing else (removing an absent
    index is a no-op); removing a fresh index right after an [update] of it
    gives back the table as it was. *)
Theorem ws_remove_spec (items : gmap Z WsItem) (idx : Z) :
  ws_remove items idx !! idx = None
  /\ (forall j, j <> idx -> ws_remove items idx !! j = items !! j)
  /\ (items !! idx = None ->
      forall status topics items',
        MockWebsocketStatus.update items idx status topics = inr items' ->
        ws_remove items' idx = items).
Proof.
  unfold ws_remove. split; [|split].
  - destruct (items !! idx) eqn:E; [apply lookup_delete_eq|exact E].
  - intros j Hj. destruct (items !! idx); [apply lookup_delete_ne; congruence|reflexivity].
  - intros Hfresh status topics items' Hup.
    destruct (ws_update_lookup items items' idx status topics Hup) as [Hother Hidx].
    rewrite Hidx. apply map_eq. intros j.
    destruct (decide (j = idx)) as [->|Hj].
    + rewrite lookup_delete_eq, Hfresh. reflexivity.
    + rewrite lookup_delete_ne by congruence. apply Hother. exact Hj.
Qed.

(* ------------------------------------------------------------------ *)
(** ** Properties of [WebUIManager.print] towards the live console *)

Lemma str_split_no_newline (s : string) :
  List.Forall (fun seg => str_contains newline seg = false) (str_split newline s).
Proof.
  induction s as [|c s IH]; cbn [str_split].
  - constructor; [reflexivity|constructor].
  - destruct (Ascii.eqb c newline) eqn:E.
    + constructor; [reflexivity|exact IH].
    + revert IH. destruct (str_split newline s) as [|p ps]; intros IH.
      * constructor; [cbn [str_contains]; rewrite E; reflexivity|constructor].
      * inversion IH as [|? ? Hp Hps]; subst.
        constructor; [cbn [str_contains]; rewrite E; exact Hp|exact Hps].
Qed.

Lemma str_split_not_nil (sep : ascii) (s : string) : str_split sep s <> [].
Proof.
  induction s as [|c s IH]; cbn [str_split]; [discriminate|].
  destruct (Ascii.eqb c sep); [discriminate|].
  destruct (str_split sep s); discriminate.
Qed.

Lemma join_split (s : string) : str_join newline (str_split newline s) = s.
Proof.
  induction s as [|c s IH]; [reflexivity|]. cbn [str_split].
  pose proof (str_split_not_nil newline s) as Hne.
  destruct (Ascii.eqb c newline) eqn:E.
  - apply Ascii.eqb_eq in E. subst c.
    destruct (str_split newline s) as [|p ps]; [congruence|].
    change (str_join newline ("" :: p :: ps)) with ("" ++ String newline (str_join newline (p :: ps))).
    rewrite IH. reflexivity.
  - destruct (str_split newline s) as [|p ps]; [congruence|].
    destruct ps as [|q qs].
    + cbn in IH |- *. rewrite IH. reflexivity.
    + change (str_join newline (String c p :: q :: qs))
        with (String c (p ++ String newline (str_join newline (q :: qs)))).
      change (str_join newline (p :: q :: qs))
        with (p ++ String newline (str_join newline (q :: qs))) in IH.
      rewrite IH. reflexivity.
Qed.

Lemma push_segments_ok (pe : string -> option string) (ts : string) (segs pushed : list string) :
  List.Forall (fun l => pe l = None)
    (map (fun seg => ts ++ ": " ++ seg) (List.filter strip_nonempty segs)) ->
  push_segments pe ts segs pushed =
    (app pushed (map (fun seg => ts ++ ": " ++ seg) (List.filter strip_nonempty segs)), None).
Proof.
  revert pushed. induction segs as [|seg segs IH]; intros pushed H.
  - cbn. rewrite app_nil_r. reflexivity.
  - cbn [push_segments List.filter] in H |- *. destruct (strip_nonempty seg).
    + cbn [map] in H |- *. inversion H as [|? ? Hseg Hrest]; subst.
      rewrite Hseg, (IH _ Hrest), <- app_assoc. reflexivity.
    + apply IH. exact H.
Qed.

Lemma push_segments_fail (pe : string -> option string) (ts : string)
    (segs pushed pre post : list string) (l e : string) :
  map (fun seg => ts ++ ": " ++ seg) (List.filter strip_nonempty segs) = app pre (l :: post) ->
  List.Forall (fun l => pe l = None) pre -> pe l = Some e ->
  push_segments pe ts segs pushed = (app pushed pre, Some e).
Proof.
  revert pushed pre. induction segs as [|seg segs IH]; intros pushed pre Hl Hpre He.
  - destruct pre; discriminate Hl.
  - cbn [push_segments List.filter] in Hl |- *. destruct (strip_nonempty seg).
    + cbn [map] in Hl. destruct pre as [|x pre].
      * injection Hl as <- _. rewrite He, app_nil_r. reflexivity.
      * injection Hl as <- Hl. inversion Hpre as [|? ? Hx Hpre']; subst.
        rewrite Hx, (IH _ pre Hl Hpre' He), <- app_assoc. reflexivity.
    + exact (IH pushed pre Hl Hpre He).
Qed.

(** [print] with a live console pushes the timestamped lines of the
    message: a message without a newline as one line, even a blank one; a
    multi-line message one line per non-blank segment, in order, where the
    segments are the newline-free pieces whose newline-join is the message.
    If every push succeeds stdout is untouched; if a push raises, the
    earlier lines stay pushed, the rest are not pushed, and the formatted
    message goes to stdout with the reason. Without a console the formatted
    message goes to stdout. The console log always gains the formatted
    message, and [print] above is the case where no push fails. *)
Theorem print_console_lines (push_error : string -> option string) (ts msg : string)
    (m : Manager) :
  let formatted := ts ++ ": " ++ msg in
  let lines :=
    if str_contains newline msg
    then map (fun seg => ts ++ ": " ++ seg) (List.filter strip_nonempty (str_split newline msg))
    else [formatted] in
  str_join newline (str_split newline msg) = msg
  /\ List.Forall (fun seg => str_contains newline seg = false) (str_split newline msg)
  /\ (console m = None ->
      print_with_push push_error ts msg m =
        mkManager (app (console_log m) [formatted]) None (app (stdout m) [formatted]))
  /\ (forall pushed, console m = Some pushed ->
      (List.Forall (fun l => push_error l = None) lines ->
         print_with_push push_error ts msg m =
           mkManager (app (console_log m) [formatted]) (Some (app pushed lines)) (stdout m))
      /\ (forall pre l post e,
            lines = app pre (l :: post) ->
            List.Forall (fun l => push_error l = None) pre -> push_error l = Some e ->
            print_with_push push_error ts msg m =
              mkManager (app (console_log m) [formatted]) (Some (app pushed pre))
                (app (stdout m) [formatted ++ " (UI update failed: " ++ e ++ ")"])))
  /\ print_with_push (fun _ => None) ts msg m = print ts msg m.
Proof.
  cbv zeta. split; [apply join_split|]. split; [apply str_split_no_newline|].
  split; [intros H; unfold print_with_push; rewrite H; reflexivity|]. split.
  - intros pushed Hc. unfold print_with_push. rewrite Hc.
    destruct (str_contains newline msg) eqn:E; split.
    + intros Hok. rewrite (push_segments_ok _ _ _ _ Hok). reflexivity.
    + intros pre l post e Hl Hpre He. rewrite (push_segments_fail _ _ _ _ _ _ _ _ Hl Hpre He).
      reflexivity.
    + intros Hok. inversion Hok as [|? ? Hf _]; subst. rewrite Hf. reflexivity.
    + intros pre l post e Hl Hpre He. destruct pre as [|x pre].
      * injection Hl as <- _. rewrite He. cbn [app]. rewrite app_nil_r. reflexivity.
      * injection Hl as _ Hl. destruct pre; discriminate Hl.
  - unfold print_with_push, print. destruct (console m) as [pushed|]; [|reflexivity].
    destruct (str_contains newline msg); [|reflexivity].
    rewrite push_segments_ok; [reflexivity|].
    apply List.Forall_forall. intros x _. reflexivity.
Qed.

Lemma print_console_lines_witness :
  stdout (print_with_push (fun _ => Some "boom") "12:00:00" "hello"
            (mkManager [] (Some []) [])) = ["12:00:00: hello (UI update failed: boom)"].
Proof.
  destruct (print_console_lines (fun _ => Some "boom") "12:00:00" "hello"
              (mkManager [] (Some []) [])) as (_ & _ & _ & H & _).
  destruct (H [] eq_refl) as [_ Hfail].
  rewrite (Hfail [] "12:00:00: hello" [] "boom" eq_refl ltac:(constructor) eq_refl).
  reflexivity.
Defined.

(* ------------------------------------------------------------------ *)
(** ** Properties of the main panel's drop display *)

(** Displaying a drop that has a progress overwrites whatever the
    previous [display_drop] or [clear_drop] left: the panel is the same as
    if the drop were displayed on the original panel. A drop without a
    progress replaces only the label: the bar keeps the value the previous
    display left, even the progress of another drop. *)
Theorem display_drop_overwrites (p : MainPanel) (prev : option DropView) (d : DropView) :
  (drop_progress d <> None ->
     display_drop (display_drop p prev) (Some d) = display_drop p (Some d))
  /\ (drop_progress d = None ->
      display_drop (display_drop p prev) (Some d) =
        mkMainPanel (progress_bar (display_drop p prev)) (progress_label (display_drop p (Some d)))).
Proof.
  destruct p as [[b|] [l|]]; destruct prev as [[[pr0|] n0]|];
    destruct d as [[pr|] n]; unfold display_drop, clear_drop;
    cbn [progress_bar progress_label drop_progress drop_name option_map];
    split; intros H; try reflexivity; congruence.
Qed.

Lemma display_drop_overwrites_witness :
  display_drop (display_drop (mkMainPanel (Some 0%Q) (Some "")) (Some (mkDropView (Some 50%Q) None)))
    (Some (mkDropView (Some 20%Q) (Some "B")))
  = display_drop (mkMainPanel (Some 0%Q) (Some "")) (Some (mkDropView (Some 20%Q) (Some "B"))).
Proof.
  apply (proj1 (display_drop_overwrites (mkMainPanel (Some 0%Q) (Some ""))
                  (Some (mkDropView (Some 50%Q) None)) (mkDropView (Some 20%Q) (Some "B")))).
  discriminate.
Defined.

(** The bar shows a drop's progress as a fraction: a progress in [0, 100]
    is divided by 100 and lands in [0, 1], but a progress above 100 is
    passed on unscaled. *)
Theorem display_drop_bar_value (p : MainPanel) (d : DropView) (pr b : Q)
    (Hbar : progress_bar p = Some b) (Hpr : drop_progress d = Some pr) :
  ((0 <= pr <= 100)%Q ->
     progress_bar (display_drop p (Some d)) = Some (pr / 100)%Q
     /\ (0 <= pr / 100 <= 1)%Q)
  /\ ((100 < pr)%Q -> progress_bar (display_drop p (Some d)) = Some pr).
Proof.
  unfold display_drop; cbn [progress_bar]. rewrite Hpr, Hbar. split.
  - intros [H0 H100]. apply Qle_bool_iff in H100 as Hb. rewrite Hb.
    split; [reflexivity|]. split.
    + apply Qle_shift_div_l; [reflexivity|]. rewrite Qmult_0_l. exact H0.
    + apply Qle_shift_div_r; [reflexivity|]. rewrite Qmult_1_l. apply Qle_bool_iff in Hb. exact Hb.
  - intros Hgt. destruct (Qle_bool pr 100) eqn:E; [|reflexivity].
    apply Qle_bool_iff in E. exfalso. exact (Qlt_not_le _ _ Hgt E).
Qed.

Lemma display_drop_bar_value_witness :
  progress_bar (display_drop (mkMainPanel (Some 0%Q) None) (Some (mkDropView (Some 150%Q) None)))
  = Some 150%Q.
Proof.
  apply (proj2 (display_drop_bar_value (mkMainPanel (Some 0%Q) None)
                  (mkDropView (Some 150%Q) None) 150%Q 0%Q eq_refl eq_refl)).
  reflexivity.
Defined.

(* ------------------------------------------------------------------ *)
(** ** Properties of the time-remaining texts *)

Section ClockProofs.
Local Open Scope Z_scope.

Lemma divmod_facts (a b : Z) : 0 < b -> a = b * (a / b) + a mod b /\ 0 <= a mod b < b.
Proof. intros Hb. split; [apply Z.div_mod; lia|apply Z.mod_pos_bound; exact Hb]. Qed.

(** [days], [hours] and [minutes] as the sources compute them from a
    positive [timedelta]: the whole minutes of it, split with
    [hours < 24] and [minutes < 60]. *)
Lemma td_decomp (us : Z) :
  0 < us ->
  0 <= td_days us
  /\ 0 <= td_seconds us / 3600 < 24
  /\ 0 <= (td_seconds us mod 3600) / 60 < 60
  /\ td_days us * 86400 + (td_seconds us / 3600) * 3600 + ((td_seconds us mod 3600) / 60) * 60
       <= us / 1000000
  /\ us / 1000000 <
       td_days us * 86400 + (td_seconds us / 3600) * 3600 + ((td_seconds us mod 3600) / 60) * 60
       + 60.
Proof.
  intros Hus. unfold td_days, td_seconds, us_per_day.
  destruct (divmod_facts us 1000000) as [E1 B1]; [lia|].
  destruct (divmod_facts us 86400000000) as [E2 B2]; [lia|].
  destruct (divmod_facts (us mod 86400000000) 1000000) as [E3 B3]; [lia|].
  destruct (divmod_facts ((us mod 86400000000) / 1000000) 3600) as [E4 B4]; [lia|].
  destruct (divmod_facts (((us mod 86400000000) / 1000000) mod 3600) 60) as [E5 B5]; [lia|].
  lia.
Qed.

(** [MockInventory._get_time_remaining]: "" without an end date,
    "Expired" once it has passed, and otherwise the remaining whole minutes
    as days, hours below 24 and minutes below 60. *)
Theorem mock_time_remaining_text (ends_at : option Z) (now : Z) :
  (ends_at = None -> mock_get_time_remaining ends_at now = "")
  /\ (forall e, ends_at = Some e -> e - now <= 0 -> mock_get_time_remaining ends_at now = "Expired")
  /\ (forall e, ends_at = Some e -> 0 < e - now ->
      exists d h m,
        0 <= d /\ 0 <= h < 24 /\ 0 <= m < 60
        /\ d * 86400 + h * 3600 + m * 60 <= (e - now) / 1000000 < d * 86400 + h * 3600 + m * 60 + 60
        /\ mock_get_time_remaining ends_at now =
             if 0 <? d then pretty d ++ "d " ++ pretty h ++ "h " ++ pretty m ++ "m"
             else if 0 <? h then pretty h ++ "h " ++ pretty m ++ "m"
             else pretty m ++ "m").
Proof.
  split; [intros ->; reflexivity|]. split.
  - intros e -> H. unfold mock_get_time_remaining.
    rewrite (proj2 (Z.ltb_ge 0 (e - now)) H). reflexivity.
  - intros e -> H. destruct (td_decomp (e - now) H) as (Hd & Hh & Hm & Hlo & Hhi).
    exists (td_days (e - now)), (td_seconds (e - now) / 3600),
      ((td_seconds (e - now) mod 3600) / 60).
    split; [exact Hd|]. split; [exact Hh|]. split; [exact Hm|]. split; [split; assumption|].
    unfold mock_get_time_remaining. rewrite (proj2 (Z.ltb_lt 0 (e - now)) H). reflexivity.
Qed.

Lemma mock_time_remaining_text_witness :
  mock_get_time_remaining (Some 0) 5 = "Expired".
Proof. apply (proj1 (proj2 (mock_time_remaining_text (Some 0) 5)) 0 eq_refl). lia. Defined.

(** [format_time_remaining] gives "" when [pytz] cannot be imported; for an
    active campaign with an end date it reads like
    [MockInventory._get_time_remaining] while time remains, but gives "" once
    the end has passed, without falling back to the upcoming branch. *)
Theorem format_time_remaining_active (c : Campaign) (ends_at starts_at : option (option Z))
    (now : Z) :
  format_time_remaining c ends_at starts_at now false = ""
  /\ (forall e, default false (c_active c) = true -> ends_at = Some (Some e) ->
      format_time_remaining c ends_at starts_at now true =
        if 0 <? e - now then mock_get_time_remaining (Some e) now else "").
Proof.
  unfold format_time_remaining. cbv zeta. split.
  - destruct (default false (c_active c)), ends_at as [[]|], (default false (c_upcoming c)),
      starts_at as [[]|]; reflexivity.
  - intros e Ha ->. rewrite Ha. cbn [negb]. unfold mock_get_time_remaining.
    destruct (0 <? e - now); reflexivity.
Qed.

Lemma format_time_remaining_active_witness :
  format_time_remaining (mkCampaign "c1" "C" None (Some true) (Some true) None None None)
    (Some (Some 0)) (Some (Some 100000000000)) 5 true = "".
Proof.
  rewrite (proj2 (format_time_remaining_active
                    (mkCampaign "c1" "C" None (Some true) (Some true) None None None)
                    (Some (Some 0)) (Some (Some 100000000000)) 5) 0 eq_refl eq_refl).
  reflexivity.
Defined.

(** With [pytz] importable, for an upcoming campaign (not active, or active
    without an [ends_at] attribute), [format_time_remaining] gives "" once
    the start has passed and otherwise "Starts in ..." with the whole hours
    to the start split into days and hours below 24. *)
Theorem format_time_remaining_upcoming (c : Campaign) (ends_at : option (option Z)) (s now : Z)
    (Hnot_active : default false (c_active c) = false \/ ends_at = None)
    (Hupcoming : default false (c_upcoming c) = true) :
  (s - now <= 0 -> format_time_remaining c ends_at (Some (Some s)) now true = "")
  /\ (0 < s - now ->
      exists d h,
        0 <= d /\ 0 <= h < 24
        /\ d * 86400 + h * 3600 <= (s - now) / 1000000 < d * 86400 + h * 3600 + 3600
        /\ format_time_remaining c ends_at (Some (Some s)) now true =
             if 0 <? d then "Starts in " ++ pretty d ++ "d " ++ pretty h ++ "h"
             else "Starts in " ++ pretty h ++ "h").
Proof.
  assert (Hbranch : format_time_remaining c ends_at (Some (Some s)) now true =
    if 0 <? s - now then
      (if 0 <? td_days (s - now)
       then "Starts in " ++ pretty (td_days (s - now)) ++ "d "
              ++ pretty (td_seconds (s - now) / 3600) ++ "h"
       else "Starts in " ++ pretty (td_seconds (s - now) / 3600) ++ "h")
    else "").
  { unfold format_time_remaining. cbv zeta. rewrite Hupcoming. cbn [negb].
    destruct Hnot_active as [Ha| ->].
    - rewrite Ha. reflexivity.
    - destruct (default false (c_active c)); reflexivity. }
  rewrite Hbranch. split.
  - intros H. rewrite (proj2 (Z.ltb_ge 0 (s - now)) H). reflexivity.
  - intros H. destruct (td_decomp (s - now) H) as (Hd & Hh & Hm & Hlo & Hhi).
    exists (td_days (s - now)), (td_seconds (s - now) / 3600).
    split; [exact Hd|]. split; [exact Hh|]. split; [lia|].
    rewrite (proj2 (Z.ltb_lt 0 (s - now)) H). reflexivity.
Qed.

Lemma format_time_remaining_upcoming_witness :
  format_time_remaining (mkCampaign "c1" "C" None None (Some true) None None None)
    None (Some (Some 0)) 5 true = "".
Proof.
  apply (proj1 (format_time_remaining_upcoming
                  (mkCampaign "c1" "C" None None (Some true) None None None)
                  None 0 5 (or_intror eq_refl) eq_refl)).
  lia.
Defined.

End ClockProofs.

(* ------------------------------------------------------------------ *)
(** ** Properties of the close and running flags *)

(** The last [close]/[prevent_close] call of a sequence, as the flag value
    it sets. *)
Fixpoint last_close_call (calls : list LifecycleCall) : option bool :=
  match calls with
  | [] => None
  | call :: rest =>
      match last_close_call rest with
      | Some b => Some b
      | None => match call with
                | CallClose => Some true
                | CallPreventClose _ => Some false
                | _ => None
                end
      end
  end.

(** The last [start]/[stop] call of a sequence, as the flag value it sets. *)
Fixpoint last_run_call (calls : list LifecycleCall) : option bool :=
  match calls with
  | [] => None
  | call :: rest =>
      match last_run_call rest with
      | Some b => Some b
      | None => match call with
                | CallStart => Some true
                | CallStop => Some false
                | _ => None
                end
      end
  end.

(** The notices the [prevent_close] calls of a sequence print. *)
Fixpoint prevent_close_lines (calls : list LifecycleCall) : list string :=
  match calls with
  | [] => []
  | CallPreventClose ts :: rest => (ts ++ ": " ++ prevent_close_notice) :: prevent_close_lines rest
  | _ :: rest => prevent_close_lines rest
  end.

(** After any sequence of [close], [prevent_close], [start] and [stop]
    calls, [close_requested] is what the last [close]/[prevent_close] set
    (start and stop never touch it), [running] is what the last
    [start]/[stop] set, and the console log has gained one notice per
    [prevent_close]. *)
Theorem lifecycle_flags (l : Lifecycle) (calls : list LifecycleCall) :
  close_requested (lifecycle_run l calls) =
    match last_close_call calls with Some b => b | None => close_requested l end
  /\ running (lifecycle_run l calls) =
    match last_run_call calls with Some b => b | None => running l end
  /\ console_log (lc_manager (lifecycle_run l calls)) =
    app (console_log (lc_manager l)) (prevent_close_lines calls).
Proof.
  revert l. induction calls as [|call calls IH]; intros l.
  - split; [reflexivity|]. split; [reflexivity|]. symmetry. apply app_nil_r.
  - unfold lifecycle_run. cbn [fold_left].
    change (fold_left lifecycle_step calls (lifecycle_step l call))
      with (lifecycle_run (lifecycle_step l call) calls).
    destruct (IH (lifecycle_step l call)) as [H1 [H2 H3]].
    rewrite H1, H2, H3. cbn [last_close_call last_run_call].
    destruct call as [|ts| |];
      cbn [lifecycle_step close_requested running lc_manager prevent_close_lines];
      [| rewrite print_log, <- app_assoc | |];
      destruct (last_close_call calls), (last_run_call calls);
      repeat split; reflexivity.
Qed.
